(** * NexusVoid security SDK: error classification, retry policy and client

    A shallow embedding of [src/errors.ts] and [src/client.ts], followed by
    the properties of [handleError], [retryRequest], [analyzePrompt],
    [healthCheck] and [getConfig].

    - JavaScript values that the client inspects at run time ([prompt],
      the response body [data]) are values of [JsValue]; strings are Rocq
      strings whose characters stand for UTF-16 code units. The numbers of
      the configuration (timeout, retries) and HTTP statuses are integers
      ([Z]).
    - Asynchronous methods are state-passing functions over a [World]:
      a store of configuration objects (so that aliasing of [this.config]
      is visible), a store of axios defaults, and the trace of the
      requests handed to the transport and of the waits performed.
    - The remote service is a section variable: the outcome of the n-th
      request handed to the transport.
    - [console.debug] and [console.error] calls are not modelled. *)

From Equations Require Import Equations.
From stdpp Require Import base option list strings pretty gmap fin_maps.
From Stdlib Require Import ZArith Lia.

Local Open Scope string_scope.
Local Open Scope list_scope.
Local Open Scope Z_scope.

(** ** JavaScript values *)

(** The values a response body, a prompt or an attached response can be.
    A number is held as the string [String(n)] gives for it (["401"],
    ["0.5"], ["1e+21"], ["NaN"]): every number has one, and the client
    does nothing with a number but test it and convert it. An object is
    the list of its own properties; [JsResponse] is a response object of
    axios, of which the status and the body are kept. *)
#[warnings="-register-all"]
Inductive JsValue : Type :=
| JsUndefined
| JsNull
| JsBoolean (b : bool)
| JsNumber (shown : string)
| JsString (s : string)
| JsArray (items : list JsValue)
| JsObject (props : list (string * JsValue))
| JsResponse (st : Z) (data : JsValue).

(** Truthiness, as used by [!x], [x || y], [x && y] and [if (x)]: of the
    numbers, 0, -0 and NaN are falsy. *)
Definition truthy (v : JsValue) : bool :=
  match v with
  | JsUndefined | JsNull => false
  | JsBoolean b => b
  | JsNumber shown => negb (String.eqb shown "0" || String.eqb shown "NaN")
  | JsString s => negb (String.eqb s EmptyString)
  | JsArray _ | JsObject _ | JsResponse _ _ => true
  end.

Definition typeof (v : JsValue) : string :=
  match v with
  | JsUndefined => "undefined"
  | JsNull => "object"
  | JsBoolean _ => "boolean"
  | JsNumber _ => "number"
  | JsString _ => "string"
  | JsArray _ | JsObject _ | JsResponse _ _ => "object"
  end.

(** [a || b] *)
Definition js_or (a b : JsValue) : JsValue := if truthy a then a else b.

Fixpoint assoc (k : string) (props : list (string * JsValue)) : JsValue :=
  match props with
  | [] => JsUndefined
  | (k', v) :: rest => if String.eqb k k' then v else assoc k rest
  end.

Fixpoint has_key (k : string) (props : list (string * JsValue)) : bool :=
  match props with
  | [] => false
  | (k', _) :: rest => String.eqb k k' || has_key k rest
  end.

(** The two properties the client reads off a response body. *)
Inductive BodyKey : Type := key_error | key_message.

Definition key_name (k : BodyKey) : string :=
  match k with
  | key_error => "error"
  | key_message => "message"
  end.

(** [v?.error] and [v?.message]: [undefined] on [null] and [undefined];
    primitives, arrays and response objects have neither property. *)
Definition opt_get (v : JsValue) (k : BodyKey) : JsValue :=
  match v with
  | JsObject props => assoc (key_name k) props
  | _ => JsUndefined
  end.

(** [String(v)], the conversion [new Error(message)] applies to its
    argument; [None] when the conversion throws a TypeError. An object
    prints as [[object Object]] through the [toString] it inherits, unless
    it has a property [toString] of its own: no value of this type is
    callable, and the [valueOf] tried next gives no primitive. An array
    prints its elements separated by commas, [null] and [undefined] as
    nothing. *)
Fixpoint ToString (v : JsValue) : option string :=
  match v with
  | JsUndefined => Some "undefined"
  | JsNull => Some "null"
  | JsBoolean true => Some "true"
  | JsBoolean false => Some "false"
  | JsNumber shown => Some shown
  | JsString s => Some s
  | JsArray items =>
    (fix join (l : list JsValue) : option string :=
       match l with
       | [] => Some EmptyString
       | x :: rest =>
         match (match x with
                | JsUndefined | JsNull => Some EmptyString
                | _ => ToString x
                end) with
         | None => None
         | Some s =>
           match rest with
           | [] => Some s
           | _ :: _ =>
             match join rest with
             | Some r => Some (s +:+ "," +:+ r)
             | None => None
             end
           end
         end
       end) items
  | JsObject props => if has_key "toString" props then None else Some "[object Object]"
  | JsResponse _ _ => Some "[object Object]"
  end.

(** [s.length] of a string value. *)
Definition js_length (v : JsValue) : Z :=
  match v with
  | JsString s => Z.of_nat (String.length s)
  | _ => 0
  end.

Definition of_opt_string (o : option string) : JsValue :=
  match o with
  | Some s => JsString s
  | None => JsUndefined
  end.

(** ** errors.ts *)

Inductive ErrorClass : Type :=
| ClsNexusVoidError
| ClsAuthenticationError
| ClsRateLimitError
| ClsValidationError
| ClsServiceError
| ClsTimeoutError.

Global Instance ErrorClass_eq_dec : EqDecision ErrorClass.
Proof. solve_decision. Defined.

Record NexusVoidError : Type := mkNexusVoidError {
  cls : ErrorClass;
  name : string;
  message : string;
  code : option string;
  status : option Z;
  response : JsValue
}.

(** ** Transport-level values (axios) *)

Record AxiosResponse : Type := mkAxiosResponse {
  resp_status : Z;
  resp_data : JsValue
}.

(** The rejection value of the transport: [response] is present when the
    server answered, [code] is the transport's error code. *)
Record AxiosError : Type := mkAxiosError {
  err_response : option AxiosResponse;
  err_code : option string;
  err_message : option string
}.

(** ** Thrown values *)

(** A thrown value is an instance of [NexusVoidError] (or of a subclass),
    the transport's own rejection value, or the TypeError of a failed
    conversion to a string. *)
Inductive Thrown : Type :=
| ThrowNexus (e : NexusVoidError)
| ThrowOther (e : AxiosError)
| ThrowTypeError.

Inductive Result (A : Type) : Type :=
| Ok (a : A)
| Throw (t : Thrown).
Arguments Ok {A} a.
Arguments Throw {A} t.

(** ** errors.ts: the constructors *)

(** [super(message)] reaching [Error]: the message property is set from
    the argument, converted to a string, unless the argument is
    [undefined]; the conversion can throw. *)
Definition Error_message (m : JsValue) : option string :=
  match m with
  | JsUndefined => Some EmptyString
  | _ => ToString m
  end.

(** [new NexusVoidError(message, code, status, response)] *)
Definition new_NexusVoidError (m : JsValue) (c : option string)
    (s : option Z) (r : JsValue) : Result NexusVoidError :=
  match Error_message m with
  | Some msg =>
    Ok {| cls := ClsNexusVoidError; name := "NexusVoidError";
          message := msg; code := c; status := s; response := r |}
  | None => Throw ThrowTypeError
  end.

(** A default parameter value applies when the argument is [undefined]. *)
Definition default_arg (v d : JsValue) : JsValue :=
  match v with
  | JsUndefined => d
  | _ => v
  end.

Definition subclass (k : ErrorClass) (nm : string) (dflt : string)
    (c : string) (s : Z) (m r : JsValue) : Result NexusVoidError :=
  match new_NexusVoidError (default_arg m (JsString dflt)) (Some c) (Some s) r with
  | Ok base =>
    Ok {| cls := k; name := nm; message := message base;
          code := code base; status := status base; response := response base |}
  | Throw t => Throw t
  end.

Definition AuthenticationError : JsValue -> JsValue -> Result NexusVoidError :=
  subclass ClsAuthenticationError "AuthenticationError" "Authentication failed" "AUTH_ERROR" 401.

Definition RateLimitError : JsValue -> JsValue -> Result NexusVoidError :=
  subclass ClsRateLimitError "RateLimitError" "Rate limit exceeded" "RATE_LIMIT_ERROR" 429.

Definition ValidationError : JsValue -> JsValue -> Result NexusVoidError :=
  subclass ClsValidationError "ValidationError" "Validation failed" "VALIDATION_ERROR" 400.

Definition ServiceError : JsValue -> JsValue -> Result NexusVoidError :=
  subclass ClsServiceError "ServiceError" "Service error" "SERVICE_ERROR" 500.

Definition TimeoutError : JsValue -> JsValue -> Result NexusVoidError :=
  subclass ClsTimeoutError "TimeoutError" "Request timeout" "TIMEOUT_ERROR" 408.

(** [error.response] read as a value. *)
Definition response_value (o : option AxiosResponse) : JsValue :=
  match o with
  | Some r => JsResponse (resp_status r) (resp_data r)
  | None => JsUndefined
  end.

Definition code_is (error : AxiosError) (c : string) : bool :=
  match err_code error with
  | Some c' => String.eqb c' c
  | None => false
  end.

(** ** client.ts: handleError *)

(** The result is the error object built, or what its constructor threw. *)
Definition handleError (error : AxiosError) : Result NexusVoidError :=
  match err_response error with
  | Some r =>
    let status := resp_status r in
    let data := resp_data r in
    let message :=
      js_or (opt_get data key_error)
        (js_or (opt_get data key_message)
           (js_or (of_opt_string (err_message error)) (JsString "Unknown error"))) in
    if status =? 401 then AuthenticationError message data
    else if status =? 429 then RateLimitError message data
    else if status =? 400 then ValidationError message data
    else if status =? 408 then TimeoutError message data
    else if (status =? 500) || (status =? 502) || (status =? 503) || (status =? 504)
      then ServiceError message data
    else new_NexusVoidError message (Some "HTTP_ERROR") (Some status) data
  | None =>
    if code_is error "ECONNABORTED" then
      TimeoutError (JsString "Request timeout") (response_value (err_response error))
    else if code_is error "ENOTFOUND" || code_is error "ECONNREFUSED" then
      ServiceError (JsString "Unable to connect to NexusVoid API")
        (response_value (err_response error))
    else
      new_NexusVoidError
        (js_or (of_opt_string (err_message error)) (JsString "Unknown error"))
        (Some "UNKNOWN_ERROR") None (response_value (err_response error))
  end.

(** ** The world: object stores and the trace of effects *)

Abbreviation loc := positive.

(** [Required<NexusVoidConfig>], the object held in [this.config]. *)
Record NexusVoidConfig : Type := mkConfig {
  apiKey : string;
  baseUrl : string;
  timeout : Z;
  retries : Z
}.

(** The argument of the constructor: every field but [apiKey] is optional. *)
Record ConfigInput : Type := mkConfigInput {
  in_apiKey : string;
  in_baseUrl : option string;
  in_timeout : option Z;
  in_retries : option Z
}.

Record AnalysisOptions : Type := mkOptions {
  opt_timeout : option Z;
  opt_retries : option Z
}.

(** [{}], the default value of the [options] parameter. *)
Definition no_options : AnalysisOptions :=
  {| opt_timeout := None; opt_retries := None |}.

(** The part of [client.defaults] that the client writes: the values given
    to [axios.create], and the two slots the setters assign. *)
Record AxiosDefaults : Type := mkDefaults {
  baseURL : string;
  dflt_timeout : Z;
  headers_Authorization : string;
  headers_ContentType : string;
  headers_UserAgent : string;
  headers_common_Authorization : option string
}.

Record AxiosRequestConfig : Type := mkRequestConfig {
  rc_timeout : option Z
}.

Inductive Method : Type := GET | POST.

(** What the transport is handed for one attempt: the instance defaults at
    that moment and the arguments of [post] or [get]. How axios merges them
    is the transport's business. *)
Record Request : Type := mkRequest {
  req_method : Method;
  req_defaults : AxiosDefaults;
  req_url : string;
  req_data : JsValue;
  req_config : AxiosRequestConfig
}.

(** The timeout one attempt runs under: the per-request value when there is
    one, else the instance default. *)
Definition req_timeout (r : Request) : Z :=
  match rc_timeout (req_config r) with
  | Some t => t
  | None => dflt_timeout (req_defaults r)
  end.

Inductive Event : Type :=
| EvRequest (r : Request)
| EvDelay (ms : Z).

Record World : Type := mkWorld {
  configs : gmap loc NexusVoidConfig;
  axios_defaults : gmap loc AxiosDefaults;
  trace : list Event
}.

Global Instance NexusVoidConfig_inhabited : Inhabited NexusVoidConfig :=
  populate (mkConfig EmptyString EmptyString 0 0).
Global Instance AxiosDefaults_inhabited : Inhabited AxiosDefaults :=
  populate (mkDefaults EmptyString 0 EmptyString EmptyString EmptyString None).

Definition log (e : Event) (w : World) : World :=
  {| configs := configs w; axios_defaults := axios_defaults w;
     trace := trace w ++ [e] |}.

(** The waits performed, oldest first. *)
Fixpoint waits (t : list Event) : list Z :=
  match t with
  | [] => []
  | EvDelay ms :: t' => ms :: waits t'
  | EvRequest _ :: t' => waits t'
  end.

(** The requests handed to the transport, oldest first. *)
Fixpoint requests (t : list Event) : list Request :=
  match t with
  | [] => []
  | EvRequest r :: t' => r :: requests t'
  | EvDelay _ :: t' => requests t'
  end.

(** Number of times the transport was invoked. *)
Definition calls (t : list Event) : nat := length (requests t).

(** ** Promises: state passing with exceptions *)

Definition M (A : Type) : Type := World -> Result A * World.

Definition ret {A} (a : A) : M A := fun w => (Ok a, w).
Definition throw {A} (t : Thrown) : M A := fun w => (Throw t, w).

Definition bind {A B} (m : M A) (k : A -> M B) : M B :=
  fun w =>
    match m w with
    | (Ok a, w') => k a w'
    | (Throw t, w') => (Throw t, w')
    end.

(** [try { m } catch (error) { h error }] *)
Definition try_catch {A} (m : M A) (h : Thrown -> M A) : M A :=
  fun w =>
    match m w with
    | (Ok a, w') => (Ok a, w')
    | (Throw t, w') => h t w'
    end.

Declare Scope promise_scope.
Delimit Scope promise_scope with promise.
Notation "x <- m ;; k" := (bind m (fun x => k))
  (at level 100, m at next level, right associativity) : promise_scope.
Local Open Scope promise_scope.

(** [this.config], read through the reference held by the client. *)
Definition read_config (l : loc) : M NexusVoidConfig :=
  fun w => (Ok (configs w !!! l), w).

(** [delay(ms)]: the wait is recorded with the argument it was given. *)
Definition delay (ms : Z) : M unit := fun w => (Ok tt, log (EvDelay ms) w).

(** ** client.ts: the client object *)

(** An axios instance: the location of its [defaults] and its methods. *)
Record AxiosInstance : Type := mkAxiosInstance {
  defaults : loc;
  post : string -> JsValue -> AxiosRequestConfig -> M AxiosResponse;
  get : string -> M AxiosResponse
}.

Record NexusVoidClient : Type := mkClient {
  client : AxiosInstance;
  config : loc
}.

(** [instanceof] tests on a caught value. *)
Definition instanceof (k : ErrorClass) (error : Thrown) : bool :=
  match error with
  | ThrowNexus e => bool_decide (cls e = k)
  | ThrowOther _ | ThrowTypeError => false
  end.

Definition instanceof_NexusVoidError (error : Thrown) : bool :=
  match error with
  | ThrowNexus _ => true
  | ThrowOther _ | ThrowTypeError => false
  end.

(** [error.status && error.status >= 500] *)
Definition status_at_least_500 (error : Thrown) : bool :=
  match error with
  | ThrowNexus e =>
    match status e with
    | Some s => negb (s =? 0) && (500 <=? s)
    | None => false
    end
  | ThrowOther _ | ThrowTypeError => false
  end.

Definition shouldRetry (error : Thrown) : bool :=
  if instanceof ClsRateLimitError error then true
  else if instanceof ClsTimeoutError error then true
  else if instanceof ClsServiceError error && status_at_least_500 error then true
  else false.

(** [retryRequest(requestFn, retries)] with [retries] a number, here
    [remaining]. The wait reads [this.config.retries] at the moment of the
    failure. *)
Equations? retryRequest_from {T} (self : NexusVoidClient) (requestFn : M T)
    (remaining : Z) (w : World) : Result T * World
    by wf (Z.to_nat remaining) lt :=
  retryRequest_from self requestFn remaining w with requestFn w := {
    | (Ok r, w1) := (Ok r, w1);
    | (Throw error, w1) with Logic.inspect ((0 <? remaining) && shouldRetry error) := {
        | exist _ true Hretry :=
          let ms := 1000 * (retries (configs w1 !!! config self) - remaining + 1) in
          retryRequest_from self requestFn (remaining - 1) (snd (delay ms w1));
        | exist _ false _ := (Throw error, w1) } }.
Proof. apply andb_prop in Hretry as [H%Z.ltb_lt _]. lia. Qed.

(** [retryRequest(requestFn, retries = this.config.retries)]: the default
    applies when the argument is [undefined]. *)
Definition retryRequest {T} (self : NexusVoidClient) (requestFn : M T)
    (arg : option Z) : M T :=
  fun w =>
    let remaining :=
      match arg with
      | Some n => n
      | None => retries (configs w !!! config self)
      end in
    retryRequest_from self requestFn remaining w.

(** [(error as any).response]; a TypeError has no such property. *)
Definition thrown_response (error : Thrown) : JsValue :=
  match error with
  | ThrowNexus e => response e
  | ThrowOther e => response_value (err_response e)
  | ThrowTypeError => JsUndefined
  end.

(** [throw new C(...)]: the constructor runs first, and can throw itself. *)
Definition throw_new {A} (r : Result NexusVoidError) : M A :=
  match r with
  | Ok e => throw (ThrowNexus e)
  | Throw t => throw t
  end.

(** The [catch] block of [analyzePrompt] and of [healthCheck]. *)
Definition rethrow_or_wrap {A} (msg : string) (error : Thrown) : M A :=
  if instanceof_NexusVoidError error then throw error
  else throw_new (ServiceError (JsString msg) (thrown_response error)).

(** The two endpoints. *)
Definition analyze_url : string := "/v1/prompt-analysis/analyze".
Definition health_url : string := "/v1/prompt-analysis/health".

(** [a || b] for an optional number [a] and a number [b]. *)
Definition num_or (a : option Z) (b : Z) : Z :=
  match a with
  | Some n => if n =? 0 then b else n
  | None => b
  end.

Definition analyzePrompt (self : NexusVoidClient) (prompt : JsValue)
    (options : AnalysisOptions) : M JsValue :=
  if negb (truthy prompt) || negb (String.eqb (typeof prompt) "string") then
    throw_new (ValidationError (JsString "Prompt must be a non-empty string") JsUndefined)
  else if 10000 <? js_length prompt then
    throw_new
      (ValidationError (JsString "Prompt must be less than 10,000 characters") JsUndefined)
  else
    cfg <- read_config (config self) ;;
    let requestConfig :=
      {| rc_timeout := Some (num_or (opt_timeout options) (timeout cfg)) |} in
    try_catch
      (response <- retryRequest self
         (post (client self) analyze_url (JsObject [("prompt", prompt)]) requestConfig)
         (opt_retries options) ;;
       ret (resp_data response))
      (rethrow_or_wrap "Failed to analyze prompt").

Definition healthCheck (self : NexusVoidClient) : M JsValue :=
  try_catch
    (response <- get (client self) health_url ;;
     ret (resp_data response))
    (rethrow_or_wrap "Failed to check service health").

(** [{ ...this.config }]: a new object with the same fields; its reference
    is what the caller receives. *)
Definition getConfig (self : NexusVoidClient) : M loc :=
  fun w =>
    let l := fresh (dom (configs w)) in
    (Ok l,
     {| configs := <[l := configs w !!! config self]> (configs w);
        axios_defaults := axios_defaults w; trace := trace w |}).

Definition setApiKey (self : NexusVoidClient) (k : string) : M unit :=
  fun w =>
    (Ok tt,
     {| configs :=
          alter (fun c => mkConfig k (baseUrl c) (timeout c) (retries c))
            (config self) (configs w);
        axios_defaults :=
          alter (fun d => mkDefaults (baseURL d) (dflt_timeout d)
                            (headers_Authorization d) (headers_ContentType d)
                            (headers_UserAgent d) (Some ("Bearer " +:+ k)))
            (defaults (client self)) (axios_defaults w);
        trace := trace w |}).

Definition setBaseUrl (self : NexusVoidClient) (u : string) : M unit :=
  fun w =>
    (Ok tt,
     {| configs :=
          alter (fun c => mkConfig (apiKey c) u (timeout c) (retries c))
            (config self) (configs w);
        axios_defaults :=
          alter (fun d => mkDefaults u (dflt_timeout d)
                            (headers_Authorization d) (headers_ContentType d)
                            (headers_UserAgent d) (headers_common_Authorization d))
            (defaults (client self)) (axios_defaults w);
        trace := trace w |}).

(** What a caller can do to a configuration object it holds a reference
    to: assign any of its fields. *)
Definition mutate (l : loc) (f : NexusVoidConfig -> NexusVoidConfig) (w : World) : World :=
  {| configs := alter f l (configs w);
     axios_defaults := axios_defaults w; trace := trace w |}.

(** ** The axios instance backed by the remote service *)

Inductive Outcome : Type :=
| Fulfilled (response : AxiosResponse)
| Rejected (error : AxiosError).

Section Transport.

(** The outcome of the n-th request handed to the transport (counting
    from 0), given that request. *)
Variable remote : nat -> Request -> Outcome.

Definition dispatchRequest (req : Request) (w : World) : Outcome * World :=
  (remote (calls (trace w)) req, log (EvRequest req) w).

(** The response interceptor pair registered by [setupInterceptors]:
    responses pass, rejections are classified by [handleError]; when
    [handleError] throws, what it threw is the rejection. *)
Definition responseInterceptor (o : Outcome) : Result AxiosResponse :=
  match o with
  | Fulfilled response => Ok response
  | Rejected error =>
    match handleError error with
    | Ok nexusError => Throw (ThrowNexus nexusError)
    | Throw t => Throw t
    end
  end.

Definition request (d : loc) (m : Method) (url : string) (data : JsValue)
    (cfg : AxiosRequestConfig) : M AxiosResponse :=
  fun w =>
    let (o, w') := dispatchRequest (mkRequest m (axios_defaults w !!! d) url data cfg) w in
    (responseInterceptor o, w').

(** [axios.create({...})] followed by [setupInterceptors()]. *)
Definition axios_create (d : loc) : AxiosInstance :=
  {| defaults := d;
     post := fun url data cfg => request d POST url data cfg;
     get := fun url => request d GET url JsUndefined (mkRequestConfig None) |}.

(** [new NexusVoidClient(config)]: the constructor allocates the
    configuration object and the defaults of the axios instance. *)
Definition new_NexusVoidClient (input : ConfigInput) (w : World) : NexusVoidClient * World :=
  let cfg :=
    {| apiKey := in_apiKey input;
       baseUrl := default "https://api.nexusvoid.com" (in_baseUrl input);
       timeout := default 30000 (in_timeout input);
       retries := default 3 (in_retries input) |} in
  let l := fresh (dom (configs w)) in
  let d := fresh (dom (axios_defaults w)) in
  let dflt :=
    {| baseURL := baseUrl cfg;
       dflt_timeout := timeout cfg;
       headers_Authorization := "Bearer " +:+ apiKey cfg;
       headers_ContentType := "application/json";
       headers_UserAgent := "@nexusvoid/security-sdk/1.0.0";
       headers_common_Authorization := None |} in
  ({| client := axios_create d; config := l |},
   {| configs := <[l := cfg]> (configs w);
      axios_defaults := <[d := dflt]> (axios_defaults w);
      trace := trace w |}).

End Transport.

(** ** Sample runs *)

Definition empty_world : World :=
  {| configs := ∅; axios_defaults := ∅; trace := [] |}.

Definition http_error (st : Z) (data : JsValue) : AxiosError :=
  {| err_response := Some (mkAxiosResponse st data);
     err_code := Some (if st <? 500 then "ERR_BAD_REQUEST" else "ERR_BAD_RESPONSE");
     err_message := Some ("Request failed with status code " +:+ pretty st) |}.

Definition always (st : Z) : nat -> Request -> Outcome :=
  fun _ _ => Rejected (http_error st (JsObject [("error", JsString "nope")])).

(** A remote that is unavailable once and then answers. *)
Definition flaky (body : JsValue) : nat -> Request -> Outcome :=
  fun k _ =>
    match k with
    | O => Rejected (http_error 503 JsUndefined)
    | S _ => Fulfilled (mkAxiosResponse 200 body)
    end.

(** A client built with only a credential, in the empty world. *)
Definition sample_client (remote : nat -> Request -> Outcome) : NexusVoidClient * World :=
  new_NexusVoidClient remote (mkConfigInput "test-key" None None None) empty_world.

Definition run_analyze (remote : nat -> Request -> Outcome) (prompt : JsValue)
    (options : AnalysisOptions) : Result JsValue * World :=
  let (c, w) := sample_client remote in analyzePrompt c prompt options w.

(** ** Vocabulary of the properties *)

(** *** Clients *)

(** The client whose axios instance talks to [remote], with its defaults
    at [d] and its configuration object at [l]. *)
Definition connect (remote : nat -> Request -> Outcome) (d l : loc) : NexusVoidClient :=
  {| client := axios_create remote d; config := l |}.

(** The instance of the test suite: [post] and [get] are mocks that reject
    with a fixed value, and no interceptor runs. *)
Definition mock_rejecting (mockError : AxiosError) : AxiosInstance :=
  {| defaults := 1%positive;
     post := fun _ _ _ => throw (ThrowOther mockError);
     get := fun _ => throw (ThrowOther mockError) |}.

(** *** Prompts *)

(** A string of 1 to 10,000 characters. *)
Definition is_valid_prompt (prompt : JsValue) : bool :=
  match prompt with
  | JsString s =>
    (1 <=? Z.of_nat (String.length s)) && (Z.of_nat (String.length s) <=? 10000)
  | _ => false
  end.

(** Empty, not a string, or longer than 10,000 characters. *)
Definition is_invalid_prompt (prompt : JsValue) : bool :=
  match prompt with
  | JsString s =>
    (Z.of_nat (String.length s) =? 0) || (10000 <? Z.of_nat (String.length s))
  | _ => true
  end.

(** The request function [analyzePrompt] hands to [retryRequest]. *)
Definition analyze_request (self : NexusVoidClient) (prompt : JsValue)
    (options : AnalysisOptions) (w : World) : M AxiosResponse :=
  post (client self) analyze_url (JsObject [("prompt", prompt)])
    {| rc_timeout :=
         Some (num_or (opt_timeout options) (timeout (configs w !!! config self))) |}.

(** *** Retries *)

(** The failures the retry policy re-attempts: a Rate-limit failure, a
    Timeout failure, or a Service failure whose status is at least 500. *)
Definition retryable (e : NexusVoidError) : bool :=
  match cls e with
  | ClsRateLimitError | ClsTimeoutError => true
  | ClsServiceError =>
    match status e with
    | Some s => 500 <=? s
    | None => false
    end
  | _ => false
  end.

(** The retry budget a call of [analyzePrompt] runs with. *)
Definition effective_retries (cfg : NexusVoidConfig) (options : AnalysisOptions) : Z :=
  default (retries cfg) (opt_retries options).

(** The remote answers with HTTP status [st]. *)
Definition responds (st : Z) (o : Outcome) : Prop :=
  exists raw r, o = Rejected raw /\ err_response raw = Some r /\ resp_status r = st.

(** The waits the code performs when every attempt fails with a retryable
    error: [configured] is [this.config.retries], [budget] the number the
    retry loop was started with. *)
Definition backoff (configured budget : Z) : list Z :=
  (fun i => 1000 * (configured - budget + 1 + i)) <$> seqZ 0 budget.

(** The waits a linear backoff of one second per retry makes over
    [maxRetries] re-attempts: 1000, 2000, and so on. *)
Definition linear_backoff (maxRetries : Z) : list Z :=
  (fun k => 1000 * k) <$> seqZ 1 maxRetries.

(** *** Classification *)

(** The taxonomy of the specification: five named failures and the generic
    one, which carries its code and its status. *)
Inductive Taxonomy : Type :=
| AuthenticationFailure
| RateLimitFailure
| ValidationFailure
| TimeoutFailure
| ServiceFailure
| GenericFailure (c : string) (st : option Z).

(** The member an error object stands for. *)
Definition member (e : NexusVoidError) : Taxonomy :=
  match cls e with
  | ClsAuthenticationError => AuthenticationFailure
  | ClsRateLimitError => RateLimitFailure
  | ClsValidationError => ValidationFailure
  | ClsTimeoutError => TimeoutFailure
  | ClsServiceError => ServiceFailure
  | ClsNexusVoidError => GenericFailure (default EmptyString (code e)) (status e)
  end.

(** The code and the status field each member carries. *)
Definition taxonomy_code (t : Taxonomy) : string :=
  match t with
  | AuthenticationFailure => "AUTH_ERROR"
  | RateLimitFailure => "RATE_LIMIT_ERROR"
  | ValidationFailure => "VALIDATION_ERROR"
  | TimeoutFailure => "TIMEOUT_ERROR"
  | ServiceFailure => "SERVICE_ERROR"
  | GenericFailure c _ => c
  end.

Definition taxonomy_status (t : Taxonomy) : option Z :=
  match t with
  | AuthenticationFailure => Some 401
  | RateLimitFailure => Some 429
  | ValidationFailure => Some 400
  | TimeoutFailure => Some 408
  | ServiceFailure => Some 500
  | GenericFailure _ st => st
  end.

(** The rows of the classification table for HTTP statuses and for
    transport codes. *)
Definition status_table : list (Z * Taxonomy) :=
  [ (401, AuthenticationFailure); (429, RateLimitFailure);
    (400, ValidationFailure); (408, TimeoutFailure);
    (500, ServiceFailure); (502, ServiceFailure);
    (503, ServiceFailure); (504, ServiceFailure) ].

Definition code_table : list (string * Taxonomy) :=
  [ ("ECONNABORTED", TimeoutFailure);
    ("ENOTFOUND", ServiceFailure); ("ECONNREFUSED", ServiceFailure) ].

Fixpoint row {K} (eqb : K -> K -> bool) (k : K) (t : list (K * Taxonomy)) : option Taxonomy :=
  match t with
  | [] => None
  | (k', m) :: t' => if eqb k k' then Some m else row eqb k t'
  end.

Definition classify_table (error : AxiosError) : Taxonomy :=
  match err_response error with
  | Some r =>
    default (GenericFailure "HTTP_ERROR" (Some (resp_status r)))
      (row Z.eqb (resp_status r) status_table)
  | None =>
    default (GenericFailure "UNKNOWN_ERROR" None)
      (c ← err_code error; row String.eqb c code_table)
  end.

(** The body of the response, when there is one. *)
Definition body_of (error : AxiosError) : JsValue :=
  match err_response error with
  | Some r => resp_data r
  | None => JsUndefined
  end.

(** The message rule as the specification words it, for every failure:
    the body's [error] field, else its [message] field, else the transport
    message, else a fixed default. *)
Definition spec_message (error : AxiosError) : option string :=
  Error_message
    (js_or (opt_get (body_of error) key_error)
       (js_or (opt_get (body_of error) key_message)
          (js_or (of_opt_string (err_message error)) (JsString "Unknown error")))).

(** The message rule of the code: the two transport-level rows of the
    table have a message of their own. [None] when the value the rule
    picks has no conversion to a string. *)
Definition table_message (error : AxiosError) : option string :=
  match err_response error, classify_table error with
  | None, TimeoutFailure => Some "Request timeout"
  | None, ServiceFailure => Some "Unable to connect to NexusVoid API"
  | _, _ => spec_message error
  end.

(** The class that stands for a member, and the [name] its constructor
    sets. *)
Definition class_of (t : Taxonomy) : ErrorClass :=
  match t with
  | AuthenticationFailure => ClsAuthenticationError
  | RateLimitFailure => ClsRateLimitError
  | ValidationFailure => ClsValidationError
  | TimeoutFailure => ClsTimeoutError
  | ServiceFailure => ClsServiceError
  | GenericFailure _ _ => ClsNexusVoidError
  end.

Definition class_name (k : ErrorClass) : string :=
  match k with
  | ClsNexusVoidError => "NexusVoidError"
  | ClsAuthenticationError => "AuthenticationError"
  | ClsRateLimitError => "RateLimitError"
  | ClsValidationError => "ValidationError"
  | ClsServiceError => "ServiceError"
  | ClsTimeoutError => "TimeoutError"
  end.

(** The error object the table describes for a failure, with message [m]. *)
Definition classified (error : AxiosError) (m : string) : NexusVoidError :=
  {| cls := class_of (classify_table error);
     name := class_name (class_of (classify_table error));
     message := m;
     code := Some (taxonomy_code (classify_table error));
     status := taxonomy_status (classify_table error);
     response := body_of error |}.

(** A field of a body that is a string or is not there. *)
Definition textual (v : JsValue) : bool :=
  match v with
  | JsUndefined | JsNull | JsString _ => true
  | _ => false
  end.

(** A connection aborted by its deadline, as axios reports it. *)
Definition timeout_abort : AxiosError :=
  {| err_response := None; err_code := Some "ECONNABORTED";
     err_message := Some "timeout of 30000ms exceeded" |}.

(** Where a Service failure comes from: an HTTP 500, 502, 503 or 504
    response, or a transport that could not reach the server. *)
Definition service_origin (error : AxiosError) : bool :=
  match err_response error with
  | Some r => bool_decide (resp_status r ∈ [500; 502; 503; 504])
  | None => code_is error "ENOTFOUND" || code_is error "ECONNREFUSED"
  end.

(** *** Configuration objects *)

(** A sequence of assignments to the object at [l']. *)
Definition mutations (l' : loc) (fs : list (NexusVoidConfig -> NexusVoidConfig))
    (w : World) : World :=
  foldl (fun w f => mutate l' f w) w fs.

(** Two worlds a client with its configuration at [l] cannot tell apart. *)
Definition same_view (l : loc) (w w' : World) : Prop :=
  configs w !!! l = configs w' !!! l /\
  axios_defaults w = axios_defaults w' /\
  trace w = trace w'.

(** *** The loop as a whole *)

(** [createClient(config)] of [index.ts]. *)
Definition createClient (remote : nat -> Request -> Outcome) (input : ConfigInput)
    (w : World) : NexusVoidClient * World :=
  new_NexusVoidClient remote input w.

(** What the response interceptor rejects with for a transport failure. *)
Definition rejection (raw : AxiosError) : Thrown :=
  match handleError raw with
  | Ok e => ThrowNexus e
  | Throw t => t
  end.

(** An outcome after which the retry loop, budget permitting, goes on: a
    rejection that [shouldRetry] accepts. *)
Definition retried (o : Outcome) : bool :=
  match o with
  | Fulfilled _ => false
  | Rejected raw => shouldRetry (rejection raw)
  end.

(** The events of a run of the loop that sends [req] and waits [ws] in
    between: one request, then a wait and a request for each element. *)
Definition attempt_trace (req : Request) (ws : list Z) : list Event :=
  EvRequest req :: flat_map (fun ms => [EvDelay ms; EvRequest req]) ws.

(** The Service failure a [catch] block builds around a value that is no
    [NexusVoidError]. *)
Definition wrapper (msg : string) (r : JsValue) : NexusVoidError :=
  {| cls := ClsServiceError; name := "ServiceError"; message := msg;
     code := Some "SERVICE_ERROR"; status := Some 500; response := r |}.

(** What a public method whose [catch] block wraps with [msg] makes of
    the outcome of an attempt: the body of a response, the classified
    failure, or the wrapper when the classification itself threw. *)
Definition call_result (msg : string) (o : Outcome) : Result JsValue :=
  match o with
  | Fulfilled response => Ok (resp_data response)
  | Rejected raw =>
    match handleError raw with
    | Ok e => Throw (ThrowNexus e)
    | Throw t => Throw (ThrowNexus (wrapper msg (thrown_response t)))
    end
  end.

(** What [analyzePrompt] and [healthCheck] make of the outcome of their
    last attempt. *)
Definition analyze_result : Outcome -> Result JsValue :=
  call_result "Failed to analyze prompt".
Definition health_result : Outcome -> Result JsValue :=
  call_result "Failed to check service health".

(** The remote answers with HTTP status [st] and a body whose message
    has a conversion to a string. *)
Definition responds_printable (st : Z) (o : Outcome) : Prop :=
  exists raw r m,
    o = Rejected raw /\ err_response raw = Some r /\ resp_status r = st /\
    table_message raw = Some m.

(** A body whose [error] property has no conversion to a string: it has a
    property [toString] of its own. *)
Definition unprintable_body : JsValue :=
  JsObject [("error", JsObject [("toString", JsNumber "1")])].

(** A remote that answers every request with status [st] and [body]. *)
Definition always_body (st : Z) (body : JsValue) : nat -> Request -> Outcome :=
  fun _ _ => Rejected (http_error st body).

(** The HTTP statuses and the transport codes whose failures are retried. *)
Definition retried_statuses : list Z := [429; 408; 500; 502; 503; 504].
Definition retried_codes : list string := ["ECONNABORTED"; "ENOTFOUND"; "ECONNREFUSED"].

(** The request [analyzePrompt] hands to the transport at each attempt,
    for the client with its defaults at [d] and its configuration at [l]. *)
Definition analyze_attempt (d l : loc) (prompt : JsValue) (options : AnalysisOptions)
    (w : World) : Request :=
  mkRequest POST (axios_defaults w !!! d) analyze_url (JsObject [("prompt", prompt)])
    {| rc_timeout :=
         Some (num_or (opt_timeout options) (timeout (configs w !!! l))) |}.

(** The request of [healthCheck]. *)
Definition health_attempt (d : loc) (w : World) : Request :=
  mkRequest GET (axios_defaults w !!! d) health_url JsUndefined (mkRequestConfig None).

(** The class a caller that dispatches on [error.code] takes an error for. *)
Definition class_of_code (c : option string) : ErrorClass :=
  match c with
  | Some c =>
    if String.eqb c "AUTH_ERROR" then ClsAuthenticationError
    else if String.eqb c "RATE_LIMIT_ERROR" then ClsRateLimitError
    else if String.eqb c "VALIDATION_ERROR" then ClsValidationError
    else if String.eqb c "SERVICE_ERROR" then ClsServiceError
    else if String.eqb c "TIMEOUT_ERROR" then ClsTimeoutError
    else ClsNexusVoidError
  | None => ClsNexusVoidError
  end.

(** * Properties *)

(** ** The retry loop, one attempt at a time *)

Lemma retryRequest_from_step {T} (self : NexusVoidClient) (requestFn : M T)
    (remaining : Z) (w : World) :
  retryRequest_from self requestFn remaining w =
  match requestFn w with
  | (Ok r, w1) => (Ok r, w1)
  | (Throw error, w1) =>
    if (0 <? remaining) && shouldRetry error then
      retryRequest_from self requestFn (remaining - 1)
        (log (EvDelay (1000 * (retries (configs w1 !!! config self) - remaining + 1))) w1)
    else (Throw error, w1)
  end.
Proof.
  simp retryRequest_from.
  destruct (requestFn w) as [[r|error] w1]; simpl; [reflexivity|].
  destruct ((0 <? remaining) && shouldRetry error) eqn:E; reflexivity.
Qed.

(** Induction along the recursion of [retryRequest]: the budget goes down
    by one while it is positive. *)
Lemma budget_ind (P : Z -> Prop) :
  (forall n, (0 < n -> P (n - 1)) -> P n) -> forall n, P n.
Proof.
  intros step n.
  induction n as [n IH] using (well_founded_induction (Z.lt_wf 0)).
  apply step. intros Hpos. apply IH. lia.
Qed.

(** ** Traces *)

Lemma waits_app (t u : list Event) : waits (t ++ u) = waits t ++ waits u.
Proof.
  induction t as [|[r|ms] t IH]; simpl; [reflexivity|assumption|].
  rewrite IH. reflexivity.
Qed.

Lemma requests_app (t u : list Event) : requests (t ++ u) = requests t ++ requests u.
Proof.
  induction t as [|[r|ms] t IH]; simpl; [reflexivity| |assumption].
  rewrite IH. reflexivity.
Qed.

Lemma calls_app (t u : list Event) : calls (t ++ u) = (calls t + calls u)%nat.
Proof. unfold calls. rewrite requests_app, length_app. reflexivity. Qed.

Lemma calls_cons_request (r : Request) (t : list Event) :
  calls (EvRequest r :: t) = S (calls t).
Proof. reflexivity. Qed.

Lemma calls_log_request (r : Request) (w : World) :
  calls (trace (log (EvRequest r) w)) = S (calls (trace w)).
Proof. simpl. rewrite calls_app. unfold calls. simpl. lia. Qed.

Lemma calls_log_delay (ms : Z) (w : World) :
  calls (trace (log (EvDelay ms) w)) = calls (trace w).
Proof. simpl. rewrite calls_app. unfold calls. simpl. lia. Qed.

Lemma waits_log_request (r : Request) (w : World) :
  waits (trace (log (EvRequest r) w)) = waits (trace w).
Proof. simpl. rewrite waits_app. simpl. apply app_nil_r. Qed.

Lemma waits_log_delay (ms : Z) (w : World) :
  waits (trace (log (EvDelay ms) w)) = waits (trace w) ++ [ms].
Proof. simpl. rewrite waits_app. reflexivity. Qed.

Lemma backoff_nonpos (configured budget : Z) : budget <= 0 -> backoff configured budget = [].
Proof. intros H. unfold backoff. rewrite seqZ_nil by lia. reflexivity. Qed.

Lemma backoff_pos (configured budget : Z) :
  0 < budget ->
  backoff configured budget =
  1000 * (configured - budget + 1) :: backoff configured (budget - 1).
Proof.
  intros H. unfold backoff. rewrite seqZ_cons by lia. simpl.
  f_equal; [f_equal; lia|].
  replace (Z.succ 0) with (1 + 0) by lia.
  rewrite <- fmap_add_seqZ, <- list_fmap_compose.
  replace (Z.pred budget) with (budget - 1) by lia.
  apply list_fmap_ext. intros _ i _. simpl. lia.
Qed.

(** ** analyzePrompt and its precondition checks *)

Lemma eqb_empty_length (s : string) :
  String.eqb s EmptyString = (Z.of_nat (String.length s) <? 1).
Proof.
  destruct s as [|a s]; [reflexivity|].
  symmetry. apply Z.ltb_ge. cbn [String.length]. lia.
Qed.

Lemma analyzePrompt_valid (self : NexusVoidClient) (prompt : JsValue)
    (options : AnalysisOptions) (w : World) :
  is_valid_prompt prompt = true ->
  analyzePrompt self prompt options w =
  match retryRequest self (analyze_request self prompt options w) (opt_retries options) w with
  | (Ok response, w') => (Ok (resp_data response), w')
  | (Throw error, w') => rethrow_or_wrap "Failed to analyze prompt" error w'
  end.
Proof.
  intros Hv. destruct prompt as [| | |n|s|items|props|st data]; try discriminate Hv.
  simpl in Hv. apply andb_prop in Hv as [H1%Z.leb_le H2%Z.leb_le].
  unfold analyzePrompt. cbn [truthy typeof js_length].
  rewrite eqb_empty_length.
  replace (Z.of_nat (String.length s) <? 1) with false by (symmetry; apply Z.ltb_ge; lia).
  replace (10000 <? Z.of_nat (String.length s)) with false
    by (symmetry; apply Z.ltb_ge; lia).
  cbn [negb orb String.eqb Ascii.eqb Bool.eqb andb].
  unfold bind, try_catch, read_config, analyze_request, analyze_url.
  destruct (retryRequest _ _ _ w) as [[response|error] w']; reflexivity.
Qed.

Lemma analyzePrompt_invalid (prompt : JsValue) :
  is_valid_prompt prompt = false ->
  exists e,
    (forall self options w,
        analyzePrompt self prompt options w = (Throw (ThrowNexus e), w)) /\
    cls e = ClsValidationError /\ code e = Some "VALIDATION_ERROR" /\
    status e = Some 400.
Proof.
  intros Hv. unfold analyzePrompt.
  destruct (negb (truthy prompt) || negb (String.eqb (typeof prompt) "string")) eqn:E1.
  { eexists. split; [reflexivity|]. repeat split. }
  destruct (10000 <? js_length prompt) eqn:E2.
  { eexists. split; [reflexivity|]. repeat split. }
  exfalso.
  destruct prompt as [| | |n|s|items|props|st data];
    try (cbn in E1; rewrite ?orb_true_r in E1; discriminate E1).
  cbn [truthy typeof js_length] in *. rewrite eqb_empty_length in E1.
  apply orb_false_elim in E1 as [E1 _]. apply negb_false_iff, negb_true_iff in E1.
  apply Z.ltb_ge in E1, E2. simpl in Hv.
  apply andb_false_iff in Hv as [H%Z.leb_gt|H%Z.leb_gt]; lia.
Qed.

(** ** Runs of the client backed by the remote service *)

Section Runs.

Variable remote : nat -> Request -> Outcome.
Variables d l : loc.

Local Abbreviation self := (connect remote d l).

Lemma post_run (url : string) (data : JsValue) (cfg : AxiosRequestConfig) (w : World) :
  post (client self) url data cfg w =
  let req := mkRequest POST (axios_defaults w !!! d) url data cfg in
  (responseInterceptor (remote (calls (trace w)) req), log (EvRequest req) w).
Proof. reflexivity. Qed.

Lemma get_run (url : string) (w : World) :
  get (client self) url w =
  let req := mkRequest GET (axios_defaults w !!! d) url JsUndefined (mkRequestConfig None) in
  (responseInterceptor (remote (calls (trace w)) req), log (EvRequest req) w).
Proof. reflexivity. Qed.

(** One attempt of the retry loop on the real [post]. *)
Lemma retry_post_step (url : string) (data : JsValue) (cfg : AxiosRequestConfig)
    (n : Z) (w : World) :
  retryRequest_from self (post (client self) url data cfg) n w =
  let req := mkRequest POST (axios_defaults w !!! d) url data cfg in
  let w1 := log (EvRequest req) w in
  match responseInterceptor (remote (calls (trace w)) req) with
  | Ok r => (Ok r, w1)
  | Throw error =>
    if (0 <? n) && shouldRetry error then
      retryRequest_from self (post (client self) url data cfg) (n - 1)
        (log (EvDelay (1000 * (retries (configs w !!! l) - n + 1))) w1)
    else (Throw error, w1)
  end.
Proof.
  rewrite retryRequest_from_step, post_run. cbv zeta.
  destruct (responseInterceptor _); reflexivity.
Qed.

(** The retry loop leaves both stores alone and only extends the trace,
    starting with the request of the first attempt. *)
Lemma retry_frame (url : string) (data : JsValue) (cfg : AxiosRequestConfig) (n : Z) :
  forall w,
    let w' := snd (retryRequest_from self (post (client self) url data cfg) n w) in
    configs w' = configs w /\ axios_defaults w' = axios_defaults w /\
    exists rest,
      trace w' =
      trace w ++ EvRequest (mkRequest POST (axios_defaults w !!! d) url data cfg) :: rest.
Proof.
  induction n as [n IH] using budget_ind. intros w.
  rewrite retry_post_step. cbv zeta.
  destruct (responseInterceptor _) as [r|error].
  { cbn [snd log configs axios_defaults trace]. repeat split; eauto. }
  destruct ((0 <? n) && shouldRetry error) eqn:E.
  2: { cbn [snd log configs axios_defaults trace]. repeat split; eauto. }
  apply andb_prop in E as [Hn%Z.ltb_lt _].
  match goal with |- context [retryRequest_from _ _ _ ?w1] =>
    destruct (IH Hn w1) as (Hc & Ha & rest & Ht) end.
  cbn [snd log configs axios_defaults trace] in *. rewrite Hc, Ha, Ht.
  repeat split. rewrite <- !app_assoc. simpl. eauto.
Qed.

(** When every attempt fails with a retryable error, the loop makes one
    attempt more than its budget and waits [backoff] in between. *)
Lemma retry_exhausts (Q : NexusVoidError -> Prop)
    (url : string) (data : JsValue) (cfg : AxiosRequestConfig) :
  (forall e, Q e -> shouldRetry (ThrowNexus e) = true) ->
  (forall k req, exists raw e,
      remote k req = Rejected raw /\ handleError raw = Ok e /\ Q e) ->
  forall n w,
    exists e w',
      retryRequest_from self (post (client self) url data cfg) n w
        = (Throw (ThrowNexus e), w') /\
      Q e /\
      calls (trace w') = (calls (trace w) + Z.to_nat n + 1)%nat /\
      waits (trace w') = waits (trace w) ++ backoff (retries (configs w !!! l)) n.
Proof.
  intros HQ Hremote n.
  induction n as [n IH] using budget_ind. intros w.
  rewrite retry_post_step. cbv zeta.
  match goal with |- context [remote ?k ?req] =>
    destruct (Hremote k req) as (raw & e0 & -> & Hok & Hraw) end.
  cbn [responseInterceptor]. rewrite Hok, (HQ _ Hraw), andb_true_r.
  destruct (0 <? n) eqn:E.
  - apply Z.ltb_lt in E.
    match goal with |- context [retryRequest_from _ _ _ ?w1] =>
      destruct (IH E w1) as (e & w' & -> & He & Hcalls & Hwaits) end.
    exists e, w'.
    rewrite calls_log_delay, calls_log_request in Hcalls.
    rewrite waits_log_delay, waits_log_request in Hwaits.
    cbn [log configs] in Hwaits.
    repeat split; [assumption| |].
    + rewrite Hcalls. lia.
    + rewrite Hwaits, (backoff_pos _ n E), <- app_assoc. reflexivity.
  - apply Z.ltb_ge in E.
    eexists _, _. repeat split; [assumption| |].
    + rewrite calls_log_request. lia.
    + rewrite waits_log_request, backoff_nonpos, app_nil_r by assumption.
      reflexivity.
Qed.

End Runs.

(** ** Error classification *)

Lemma js_or_truthy (a b : JsValue) : truthy b = true -> truthy (js_or a b) = true.
Proof. intros H. unfold js_or. destruct (truthy a) eqn:E; assumption. Qed.

Lemma default_arg_truthy (v d : JsValue) : truthy v = true -> default_arg v d = v.
Proof. destruct v; simpl; (discriminate || reflexivity). Qed.

Lemma subclass_run (k : ErrorClass) (nm dflt c : string) (s : Z) (m r : JsValue) :
  truthy m = true ->
  subclass k nm dflt c s m r =
  match Error_message m with
  | Some msg =>
    Ok {| cls := k; name := nm; message := msg;
          code := Some c; status := Some s; response := r |}
  | None => Throw ThrowTypeError
  end.
Proof.
  intros H. unfold subclass, new_NexusVoidError.
  rewrite default_arg_truthy by assumption.
  destruct (Error_message m); reflexivity.
Qed.

Lemma http_message_truthy (error : AxiosError) (data : JsValue) :
  truthy (js_or (opt_get data key_error)
            (js_or (opt_get data key_message)
               (js_or (of_opt_string (err_message error)) (JsString "Unknown error"))))
  = true.
Proof. repeat apply js_or_truthy. reflexivity. Qed.

Ltac case_eqb :=
  match goal with
  | |- context [Z.eqb ?a ?b] => destruct (Z.eqb_spec a b); [subst|]
  | |- context [String.eqb ?a ?b] => destruct (String.eqb_spec a b); [subst|]
  end.

(** [handleError] against the table: the error the table describes, or
    the TypeError of the conversion of its message. *)
Lemma handleError_run (error : AxiosError) :
  handleError error =
  match table_message error with
  | Some m => Ok (classified error m)
  | None => Throw ThrowTypeError
  end.
Proof.
  destruct error as [[[st data]|] c m].
  - unfold handleError, classified, table_message, classify_table, spec_message, body_of.
    cbn [err_response resp_status resp_data err_message].
    pose proof (http_message_truthy (mkAxiosError (Some (mkAxiosResponse st data)) c m) data)
      as Hm.
    cbn [err_message] in Hm.
    unfold AuthenticationError, RateLimitError, ValidationError, TimeoutError, ServiceError.
    rewrite !subclass_run by exact Hm. unfold new_NexusVoidError.
    unfold status_table. cbn [row].
    destruct (Error_message _) as [msg|];
      repeat (case_eqb; [reflexivity|]); reflexivity.
  - unfold handleError, classified, table_message, classify_table, spec_message, body_of,
      code_is.
    cbn [err_response err_code err_message].
    destruct c as [c|]; cbn [mbind option_bind code_table row].
    + repeat (case_eqb; [reflexivity|]). cbn [orb default].
      unfold new_NexusVoidError. cbn [opt_get js_or truthy].
      destruct (Error_message _); reflexivity.
    + cbn [default]. unfold new_NexusVoidError. cbn [opt_get js_or truthy].
      destruct (Error_message _); reflexivity.
Qed.

Example handleError_401 :
  handleError (http_error 401 (JsObject [("error", JsString "Invalid API key")])) =
  Ok {| cls := ClsAuthenticationError; name := "AuthenticationError";
        message := "Invalid API key"; code := Some "AUTH_ERROR"; status := Some 401;
        response := JsObject [("error", JsString "Invalid API key")] |}.
Proof. reflexivity. Qed.

(** An empty [error] field is passed over, as is a body that is no object. *)
Example handleError_message_fallback :
  table_message (http_error 429
     (JsObject [("error", JsString EmptyString); ("message", JsString "slow down")]))
    = Some "slow down" /\
  table_message (http_error 502 (JsString "<html>Bad Gateway</html>"))
    = Some "Request failed with status code 502" /\
  table_message (mkAxiosError (Some (mkAxiosResponse 500 JsNull)) None None)
    = Some "Unknown error".
Proof. vm_compute. repeat split. Qed.

(** Messages that are no strings: a number is shown as [String] shows it,
    an array as its elements joined, the empty array as the empty string;
    an object with a [toString] property of its own makes the constructor
    throw. *)
Example handleError_message_conversions :
  table_message (http_error 400 (JsObject [("error", JsNumber "1e+21")])) = Some "1e+21" /\
  table_message (http_error 400
     (JsObject [("error", JsArray [JsNumber "1"; JsArray [JsNumber "2"; JsNull];
                                   JsString "a"])])) = Some "1,2,,a" /\
  table_message (http_error 400 (JsObject [("error", JsArray [])])) = Some EmptyString /\
  table_message (http_error 400 (JsObject [("error", JsObject [("code", JsNumber "7")])]))
    = Some "[object Object]" /\
  handleError (http_error 401 unprintable_body) = Throw ThrowTypeError.
Proof. vm_compute. repeat split. Qed.

Example handleError_418 :
  exists e,
    handleError (http_error 418 JsUndefined) = Ok e /\
    cls e = ClsNexusVoidError /\ code e = Some "HTTP_ERROR" /\ status e = Some 418.
Proof. eexists. split; [reflexivity|]. repeat split. Qed.

Example handleError_refused :
  handleError (mkAxiosError None (Some "ECONNREFUSED") (Some "connect ECONNREFUSED")) =
  Ok {| cls := ClsServiceError; name := "ServiceError";
        message := "Unable to connect to NexusVoid API"; code := Some "SERVICE_ERROR";
        status := Some 500; response := JsUndefined |}.
Proof. reflexivity. Qed.

(** C3, as stated, fails: for a connection aborted by its deadline the
    transport message is there, and the classified error does not carry it. *)
Lemma handleError_message_not_transport :
  exists e,
    handleError timeout_abort = Ok e /\
    spec_message timeout_abort = Some "timeout of 30000ms exceeded" /\
    message e = "Request timeout" /\
    Some (message e) <> spec_message timeout_abort.
Proof. eexists. split; [reflexivity|]. repeat split. discriminate. Qed.

(** C3, amended: [handleError] maps every transport failure whose message
    has a conversion to a string to the member the table gives, with that
    member's code and status and with the response body attached; the
    message is the body's [error] field, else its [message] field, else the
    transport message, else "Unknown error", converted to a string, except
    in the two transport-level rows, whose messages are fixed: "Request
    timeout" and "Unable to connect to NexusVoid API". *)
Theorem handleError_table (error : AxiosError) (m : string) :
  table_message error = Some m ->
  exists e,
    handleError error = Ok e /\
    member e = classify_table error /\
    code e = Some (taxonomy_code (classify_table error)) /\
    status e = taxonomy_status (classify_table error) /\
    message e = m /\
    response e = body_of error.
Proof.
  intros Hm. exists (classified error m).
  rewrite handleError_run, Hm. split; [reflexivity|].
  unfold member, classified. cbn [cls code status message response].
  destruct (classify_table error); repeat split.
Qed.

Lemma handleError_table_sample :
  exists e,
    handleError (http_error 429
       (JsObject [("error", JsString EmptyString); ("message", JsString "slow down")]))
      = Ok e /\
    member e = RateLimitFailure /\
    code e = Some "RATE_LIMIT_ERROR" /\
    status e = Some 429 /\
    message e = "slow down" /\
    response e =
      JsObject [("error", JsString EmptyString); ("message", JsString "slow down")].
Proof.
  apply (handleError_table
           (http_error 429
              (JsObject [("error", JsString EmptyString); ("message", JsString "slow down")]))
           "slow down").
  reflexivity.
Defined.

Lemma service_origin_classified (error : AxiosError) :
  service_origin error = true -> classify_table error = ServiceFailure.
Proof.
  destruct error as [[[st data]|] c m]; unfold service_origin, classify_table, code_is;
    cbn [err_response resp_status err_code].
  - intros H%bool_decide_eq_true.
    repeat (apply elem_of_cons in H as [->|H]); try reflexivity.
    inversion H.
  - destruct c as [c|]; [|discriminate].
    cbn [mbind option_bind code_table row].
    repeat case_eqb; simpl; intros; (reflexivity || discriminate).
Qed.

Lemma classified_service_origin (error : AxiosError) :
  class_of (classify_table error) = ClsServiceError -> service_origin error = true.
Proof.
  destruct error as [[[st data]|] c m]; unfold service_origin, classify_table, code_is;
    cbn [err_response resp_status err_code].
  - unfold status_table. cbn [row].
    repeat (case_eqb; [cbn [default class_of]; intros H; (discriminate H || reflexivity)|]).
    cbn [default class_of]. discriminate.
  - destruct c as [c|]; [|discriminate].
    cbn [mbind option_bind code_table row].
    repeat (case_eqb; [cbn [default class_of orb]; intros H;
                       (discriminate H || reflexivity)|]).
    cbn [default class_of]. discriminate.
Qed.

Lemma handleError_Ok (error : AxiosError) (e : NexusVoidError) :
  handleError error = Ok e ->
  exists m, table_message error = Some m /\ e = classified error m.
Proof.
  rewrite handleError_run. destruct (table_message error) as [m|]; [|discriminate].
  intros [= <-]. eauto.
Qed.

(** The one way classification throws: the message it chose has no
    conversion to a string, and the constructor throws a TypeError. *)
Lemma handleError_Throw (error : AxiosError) (t : Thrown) :
  handleError error = Throw t ->
  t = ThrowTypeError /\ table_message error = None.
Proof.
  rewrite handleError_run. destruct (table_message error) as [m|]; [discriminate|].
  intros [= <-]. split; reflexivity.
Qed.

(** C9: every Service failure that classification produces has status 500
    and code SERVICE_ERROR, whether it comes from an HTTP 500, 502, 503 or
    504 response or from a connectivity failure; the status of the response
    is not kept, the response body is what is attached. *)
Theorem ServiceError_status_fixed (error : AxiosError) (e : NexusVoidError) :
  handleError error = Ok e ->
  cls e = ClsServiceError ->
  service_origin error = true /\
  status e = Some 500 /\
  code e = Some "SERVICE_ERROR" /\
  response e = body_of error.
Proof.
  intros (m & _ & ->)%handleError_Ok. unfold classified. cbn [cls status code response].
  intros Hcls. split; [apply classified_service_origin, Hcls|].
  destruct (classify_table error); try discriminate Hcls. repeat split.
Qed.

Lemma ServiceError_status_fixed_503 :
  let error := http_error 503 (JsString "<html>Service Unavailable</html>") in
  exists e,
    handleError error = Ok e /\
    cls e = ClsServiceError /\
    status e = Some 500 /\
    response e = JsString "<html>Service Unavailable</html>".
Proof.
  intros error. eexists. split; [reflexivity|]. split; [reflexivity|].
  pose proof (ServiceError_status_fixed error _ eq_refl eq_refl) as (_ & Hs & _ & Hr).
  split; assumption.
Defined.


(** ** Construction and sample runs *)

Lemma new_NexusVoidClient_connect (remote : nat -> Request -> Outcome)
    (input : ConfigInput) (w : World) :
  let l := fresh (dom (configs w)) in
  let d := fresh (dom (axios_defaults w)) in
  fst (new_NexusVoidClient remote input w) = connect remote d l /\
  exists c,
    configs (snd (new_NexusVoidClient remote input w)) !! l = Some c /\
    apiKey c = in_apiKey input /\
    baseUrl c = default "https://api.nexusvoid.com" (in_baseUrl input) /\
    timeout c = default 30000 (in_timeout input) /\
    retries c = default 3 (in_retries input).
Proof.
  intros l d. split; [reflexivity|].
  eexists. split; [apply lookup_insert_eq|]. repeat split.
Qed.

Example sample_client_defaults :
  fst (sample_client (always 503)) = connect (always 503) 1 1 /\
  configs (snd (sample_client (always 503))) !! 1%positive
    = Some (mkConfig "test-key" "https://api.nexusvoid.com" 30000 3).
Proof. vm_compute. split; reflexivity. Qed.

Example flaky_succeeds_on_second_attempt :
  let out := run_analyze (flaky (JsString "ok")) (JsString "test") no_options in
  fst out = Ok (JsString "ok") /\
  calls (trace (snd out)) = 2%nat /\
  waits (trace (snd out)) = [1000].
Proof. vm_compute. repeat split. Qed.

(** ** The retry policy *)

Lemma shouldRetry_retryable (e : NexusVoidError) :
  shouldRetry (ThrowNexus e) = retryable e.
Proof.
  unfold shouldRetry, retryable, instanceof, status_at_least_500.
  destruct (cls e); simpl; try reflexivity.
  destruct (status e) as [s|]; [|reflexivity].
  destruct (Z.leb_spec 500 s), (Z.eqb_spec s 0); simpl; (reflexivity || lia).
Qed.

Lemma responseInterceptor_rejected (raw : AxiosError) :
  responseInterceptor (Rejected raw) = Throw (rejection raw).
Proof. unfold rejection. cbn. destruct (handleError raw); reflexivity. Qed.

Lemma shouldRetry_rejection (raw : AxiosError) :
  shouldRetry (rejection raw) = true <->
  exists e, handleError raw = Ok e /\ retryable e = true.
Proof.
  unfold rejection. rewrite handleError_run.
  destruct (table_message raw) as [m|].
  - rewrite shouldRetry_retryable. split; [eauto|].
    intros (e & [= <-] & He). exact He.
  - split; [discriminate|]. intros (e & H & _). discriminate H.
Qed.

Section Policy.

Variable remote : nat -> Request -> Outcome.
Variables d l : loc.

Local Abbreviation self := (connect remote d l).

(** C2: when an attempt fails, the failure is classified and the request is
    attempted again if and only if the remaining budget is positive and the
    classified error is a Rate-limit failure, a Timeout failure or a Service
    failure with status at least 500; otherwise what the classification gave
    propagates at once, the transport having been invoked once. *)
Theorem retry_iff_budget_and_retryable
    (url : string) (data : JsValue) (cfg : AxiosRequestConfig)
    (n : Z) (w : World) (raw : AxiosError) :
  let req := mkRequest POST (axios_defaults w !!! d) url data cfg in
  let out := retryRequest_from self (post (client self) url data cfg) n w in
  remote (calls (trace w)) req = Rejected raw ->
  ((calls (trace w) + 2 <= calls (trace (snd out)))%nat <->
   0 < n /\ exists e, handleError raw = Ok e /\ retryable e = true) /\
  (~ (0 < n /\ exists e, handleError raw = Ok e /\ retryable e = true) ->
   out = (Throw (rejection raw), log (EvRequest req) w)).
Proof.
  intros req out Hraw. subst out.
  rewrite retry_post_step. cbv zeta. fold req. rewrite Hraw.
  rewrite responseInterceptor_rejected.
  pose proof (shouldRetry_rejection raw) as Hiff.
  destruct (Z.ltb_spec 0 n) as [Hn|Hn]; cbn [andb].
  - destruct (shouldRetry (rejection raw)) eqn:E.
    + assert (Hex : exists e, handleError raw = Ok e /\ retryable e = true)
        by (apply Hiff; reflexivity).
      split; [|intros H; exfalso; apply H; split; assumption].
      split; [intros _; split; assumption|intros _].
      match goal with |- context [retryRequest_from _ _ _ ?w1] =>
        destruct (retry_frame remote d l url data cfg (n - 1) w1) as (_ & _ & rest & Ht) end.
      rewrite Ht, calls_app, calls_cons_request, calls_log_delay, calls_log_request.
      lia.
    + split; [|reflexivity].
      cbn [snd]. rewrite calls_log_request.
      split; [lia|intros [_ H]; apply Hiff in H; discriminate H].
  - split; [|reflexivity].
    cbn [snd]. rewrite calls_log_request. split; lia.
Qed.

End Policy.

Lemma retry_iff_budget_and_retryable_503 :
  let remote := always 503 in
  let w := snd (sample_client remote) in
  let out :=
    retryRequest_from (connect remote 1 1)
      (post (client (connect remote 1 1)) analyze_url JsNull (mkRequestConfig None)) 1 w in
  (calls (trace w) + 2 <= calls (trace (snd out)))%nat.
Proof.
  intros remote w out.
  eapply (retry_iff_budget_and_retryable remote 1%positive 1%positive
            analyze_url JsNull (mkRequestConfig None) 1 w).
  - reflexivity.
  - split; [lia|]. eexists. split; reflexivity.
Defined.

(** ** Exhausted budgets and the backoff *)

Lemma backoff_same (n : Z) : backoff n n = linear_backoff n.
Proof.
  unfold backoff, linear_backoff.
  change (seqZ 1 n) with (seqZ (1 + 0) n).
  rewrite <- fmap_add_seqZ, <- list_fmap_compose.
  apply list_fmap_ext. intros _ i _. simpl. lia.
Qed.

Lemma responds_printable_classified (st : Z) (o : Outcome) :
  responds_printable st o ->
  exists raw e,
    o = Rejected raw /\ handleError raw = Ok e /\
    member e = default (GenericFailure "HTTP_ERROR" (Some st)) (row Z.eqb st status_table).
Proof.
  intros (raw & r & m & -> & Hr & Hst & Hm). exists raw, (classified raw m).
  split; [reflexivity|]. split; [rewrite handleError_run, Hm; reflexivity|].
  unfold member, classified. cbn [cls code status].
  unfold classify_table. rewrite Hr, Hst.
  destruct (default _ _); reflexivity.
Qed.

Lemma responds_429 (o : Outcome) :
  responds_printable 429 o ->
  exists raw e,
    o = Rejected raw /\ handleError raw = Ok e /\ member e = RateLimitFailure.
Proof. apply responds_printable_classified. Qed.

Lemma responds_401 (o : Outcome) :
  responds_printable 401 o ->
  exists raw e,
    o = Rejected raw /\ handleError raw = Ok e /\ member e = AuthenticationFailure.
Proof. apply responds_printable_classified. Qed.

Lemma member_RateLimit_retryable (e : NexusVoidError) :
  member e = RateLimitFailure -> shouldRetry (ThrowNexus e) = true.
Proof.
  rewrite shouldRetry_retryable. unfold member, retryable.
  destruct (cls e); (discriminate || reflexivity).
Qed.

Section Exhaustion.

Variable remote : nat -> Request -> Outcome.
Variables d l : loc.

Local Abbreviation self := (connect remote d l).

(** [analyzePrompt] when every attempt fails with a retryable error. *)
Lemma analyze_exhausts (Q : NexusVoidError -> Prop)
    (prompt : JsValue) (options : AnalysisOptions) (w : World) :
  (forall e, Q e -> shouldRetry (ThrowNexus e) = true) ->
  (forall k req, exists raw e,
      remote k req = Rejected raw /\ handleError raw = Ok e /\ Q e) ->
  is_valid_prompt prompt = true ->
  let budget := effective_retries (configs w !!! l) options in
  exists e w',
    analyzePrompt self prompt options w = (Throw (ThrowNexus e), w') /\
    Q e /\
    calls (trace w') = (calls (trace w) + Z.to_nat budget + 1)%nat /\
    waits (trace w') = waits (trace w) ++ backoff (retries (configs w !!! l)) budget.
Proof.
  intros HQ Hremote Hv budget.
  rewrite analyzePrompt_valid by assumption.
  unfold retryRequest, analyze_request. cbn [config connect].
  replace (match opt_retries options with
           | Some n => n
           | None => retries (configs w !!! l)
           end) with budget
    by (unfold budget, effective_retries; destruct (opt_retries options); reflexivity).
  destruct (retry_exhausts remote d l Q analyze_url (JsObject [("prompt", prompt)])
              {| rc_timeout :=
                   Some (num_or (opt_timeout options) (timeout (configs w !!! l))) |}
              HQ Hremote budget w)
    as (e & w' & Heq & He & Hcalls & Hwaits).
  exists e, w'. rewrite Heq. repeat split; assumption.
Qed.

(** C4, amended: when every attempt is answered with a 429 whose message
    has a conversion to a string, [analyzePrompt] fails with a Rate-limit
    failure after exactly [max(maxRetries, 0) + 1] invocations of the
    transport, [maxRetries] being the retry budget of the call. *)
Theorem analyze_429_attempts (prompt : JsValue) (options : AnalysisOptions) (w : World) :
  is_valid_prompt prompt = true ->
  (forall k req, responds_printable 429 (remote k req)) ->
  let maxRetries := effective_retries (configs w !!! l) options in
  exists e w',
    analyzePrompt self prompt options w = (Throw (ThrowNexus e), w') /\
    member e = RateLimitFailure /\
    Z.of_nat (calls (trace w')) = Z.of_nat (calls (trace w)) + Z.max 0 maxRetries + 1.
Proof.
  intros Hv Hremote maxRetries.
  destruct (analyze_exhausts (fun e => member e = RateLimitFailure) prompt options w
              member_RateLimit_retryable
              (fun k req => responds_429 _ (Hremote k req)) Hv)
    as (e & w' & Heq & He & Hcalls & _).
  exists e, w'. repeat split; try assumption.
  rewrite Hcalls. fold maxRetries. lia.
Qed.

End Exhaustion.

Lemma responds_always (st : Z) (k : nat) (req : Request) : responds st (always st k req).
Proof. unfold responds, always, http_error. eexists _, _. repeat split. Qed.

Lemma responds_printable_always (st : Z) (k : nat) (req : Request) :
  responds_printable st (always st k req).
Proof.
  unfold responds_printable, always, http_error. eexists _, _, _.
  split; [reflexivity|]. split; [reflexivity|]. split; reflexivity.
Qed.

Lemma analyze_429_attempts_sample :
  exists e w',
    analyzePrompt (connect (always 429) 1 1) (JsString "test")
      (mkOptions None (Some 2)) (snd (sample_client (always 429)))
    = (Throw (ThrowNexus e), w') /\
    member e = RateLimitFailure /\
    Z.of_nat (calls (trace w')) = 0 + 2 + 1.
Proof.
  apply (analyze_429_attempts (always 429) 1%positive 1%positive (JsString "test")
           (mkOptions None (Some 2)) (snd (sample_client (always 429)))).
  - reflexivity.
  - intros k req. apply responds_printable_always.
Defined.

(** C4, as stated, fails: a budget of -1 gives one attempt, not
    [maxRetries + 1 = 0]. *)
Lemma analyze_negative_budget_one_attempt :
  let out := run_analyze (always 429) (JsString "test") (mkOptions None (Some (-1))) in
  effective_retries (configs (snd (sample_client (always 429))) !!! 1%positive)
    (mkOptions None (Some (-1))) = -1 /\
  calls (trace (snd out)) = 1%nat /\
  Z.of_nat (calls (trace (snd out))) <> -1 + 1.
Proof. vm_compute. repeat split. discriminate. Qed.

(** When the call does not override the budget, the waits are the linear
    backoff over the configured number of retries. *)
Lemma analyze_backoff_default (remote : nat -> Request -> Outcome) (d l : loc)
    (prompt : JsValue) (t : option Z) (w : World) :
  (forall k req, exists raw e,
      remote k req = Rejected raw /\ handleError raw = Ok e /\
      shouldRetry (ThrowNexus e) = true) ->
  is_valid_prompt prompt = true ->
  waits (trace (snd (analyzePrompt (connect remote d l) prompt (mkOptions t None) w)))
  = waits (trace w) ++ linear_backoff (retries (configs w !!! l)).
Proof.
  intros Hremote Hv.
  destruct (analyze_exhausts remote d l
              (fun e => shouldRetry (ThrowNexus e) = true) prompt (mkOptions t None) w
              (fun e H => H) Hremote Hv)
    as (e & w' & -> & _ & _ & Hwaits).
  cbn [snd]. rewrite Hwaits. unfold effective_retries. cbn [opt_retries default].
  rewrite backoff_same. reflexivity.
Qed.

(** C1 fails on the code: the wait is computed from the configured number
    of retries, not from the budget of the call. With 3 configured and an
    override of 5 the waits are -1000, 0, 1000, 2000, 3000 instead of
    1000, 2000, 3000, 4000, 5000. *)
Theorem backoff_ignores_override :
  let out := run_analyze (always 429) (JsString "test") (mkOptions None (Some 5)) in
  retries (configs (snd (sample_client (always 429))) !!! 1%positive) = 3 /\
  calls (trace (snd out)) = 6%nat /\
  waits (trace (snd out)) = [-1000; 0; 1000; 2000; 3000] /\
  linear_backoff 5 = [1000; 2000; 3000; 4000; 5000].
Proof. vm_compute. repeat split. Qed.

(** ** Precondition checks and the catch block *)

Lemma is_invalid_prompt_negb (prompt : JsValue) :
  is_invalid_prompt prompt = negb (is_valid_prompt prompt).
Proof.
  destruct prompt as [| | |n|s|items|props|st data]; try reflexivity. simpl.
  destruct (Z.eqb_spec (Z.of_nat (String.length s)) 0),
    (Z.ltb_spec 10000 (Z.of_nat (String.length s))),
    (Z.leb_spec 1 (Z.of_nat (String.length s))),
    (Z.leb_spec (Z.of_nat (String.length s)) 10000); simpl; (reflexivity || lia).
Qed.

Lemma rethrow_or_wrap_world {A} (msg : string) (error : Thrown) (w : World) :
  snd (rethrow_or_wrap (A := A) msg error w) = w.
Proof. destruct error; reflexivity. Qed.

Lemma analyzePrompt_world (self : NexusVoidClient) (prompt : JsValue)
    (options : AnalysisOptions) (w : World) :
  is_valid_prompt prompt = true ->
  snd (analyzePrompt self prompt options w) =
  snd (retryRequest self (analyze_request self prompt options w) (opt_retries options) w).
Proof.
  intros Hv. rewrite analyzePrompt_valid by assumption.
  destruct (retryRequest _ _ _ w) as [[r|error] w']; [reflexivity|].
  apply rethrow_or_wrap_world.
Qed.

Lemma member_Authentication_final (e : NexusVoidError) :
  member e = AuthenticationFailure -> shouldRetry (ThrowNexus e) = false.
Proof.
  rewrite shouldRetry_retryable. unfold member, retryable.
  destruct (cls e); (discriminate || reflexivity).
Qed.

Section Calls.

Variable remote : nat -> Request -> Outcome.
Variables d l : loc.

Local Abbreviation self := (connect remote d l).

(** C5: an empty, non-string or over-long prompt makes [analyzePrompt] fail
    with a Validation failure in the world it started in, the transport not
    having been invoked; a string of 1 to 10,000 characters passes the
    checks and the request carrying it is handed to the transport. *)
Theorem analyze_precondition (prompt : JsValue) (options : AnalysisOptions) (w : World) :
  (is_invalid_prompt prompt = true ->
   exists e,
     analyzePrompt self prompt options w = (Throw (ThrowNexus e), w) /\
     member e = ValidationFailure) /\
  (is_valid_prompt prompt = true ->
   exists req rest,
     trace (snd (analyzePrompt self prompt options w)) = trace w ++ EvRequest req :: rest /\
     req_method req = POST /\ req_url req = analyze_url /\
     req_data req = JsObject [("prompt", prompt)]).
Proof.
  split; intros Hv.
  - rewrite is_invalid_prompt_negb in Hv. apply negb_true_iff in Hv.
    destruct (analyzePrompt_invalid prompt Hv) as (e & Heq & Hcls & _).
    exists e. split; [apply Heq|]. unfold member. rewrite Hcls. reflexivity.
  - rewrite analyzePrompt_world by assumption.
    unfold retryRequest, analyze_request.
    match goal with |- context [retryRequest_from _ (post _ ?u ?b ?c) ?n w] =>
      destruct (retry_frame remote d l u b c n w) as (_ & _ & rest & Ht) end.
    eexists _, rest. split; [exact Ht|]. repeat split.
Qed.

(** When the remote answers 401 with a message that has a conversion to a
    string, [analyzePrompt] and [healthCheck] fail with an Authentication
    failure and the transport has been invoked exactly once. *)
Lemma auth_no_retry (prompt : JsValue) (options : AnalysisOptions) (w : World) :
  is_valid_prompt prompt = true ->
  (forall req, responds_printable 401 (remote (calls (trace w)) req)) ->
  (exists e w',
     analyzePrompt self prompt options w = (Throw (ThrowNexus e), w') /\
     member e = AuthenticationFailure /\
     calls (trace w') = S (calls (trace w))) /\
  (exists e w',
     healthCheck self w = (Throw (ThrowNexus e), w') /\
     member e = AuthenticationFailure /\
     calls (trace w') = S (calls (trace w))).
Proof.
  intros Hv Hremote. split.
  - rewrite analyzePrompt_valid by assumption.
    unfold retryRequest, analyze_request. rewrite retry_post_step. cbv zeta.
    match goal with |- context [remote ?k ?req] =>
      destruct (responds_401 _ (Hremote req)) as (raw & e & -> & Hok & Hm) end.
    cbn [responseInterceptor]. rewrite Hok.
    rewrite (member_Authentication_final _ Hm), andb_false_r.
    eexists _, _. split; [reflexivity|]. split; [exact Hm|].
    apply calls_log_request.
  - unfold healthCheck, try_catch, bind. rewrite get_run. cbv zeta.
    match goal with |- context [remote ?k ?req] =>
      destruct (responds_401 _ (Hremote req)) as (raw & e & -> & Hok & Hm) end.
    cbn [responseInterceptor]. rewrite Hok.
    eexists _, _. split; [reflexivity|]. split; [exact Hm|].
    apply calls_log_request.
Qed.

(** C10: a [timeout] override of 0 is ignored, the request runs under the
    timeout of the configuration; a [retries] override of 0 is honoured, a
    request that fails is attempted once, even when its failure is one the
    policy retries. *)
Theorem falsy_overrides (prompt : JsValue) (w : World) :
  is_valid_prompt prompt = true ->
  (forall r, exists req rest,
      trace (snd (analyzePrompt self prompt (mkOptions (Some 0) r) w))
        = trace w ++ EvRequest req :: rest /\
      req_timeout req = timeout (configs w !!! l)) /\
  (forall t raw e,
      (forall req, remote (calls (trace w)) req = Rejected raw) ->
      handleError raw = Ok e ->
      retryable e = true ->
      exists w',
        analyzePrompt self prompt (mkOptions t (Some 0)) w
          = (Throw (ThrowNexus e), w') /\
        calls (trace w') = S (calls (trace w)) /\
        waits (trace w') = waits (trace w)).
Proof.
  intros Hv. split.
  - intros r. rewrite analyzePrompt_world by assumption.
    unfold retryRequest, analyze_request.
    match goal with |- context [retryRequest_from _ (post _ ?u ?b ?c) ?n w] =>
      destruct (retry_frame remote d l u b c n w) as (_ & _ & rest & Ht) end.
    eexists _, rest. split; [exact Ht|]. reflexivity.
  - intros t raw e Hremote Hok Hretry.
    rewrite analyzePrompt_valid by assumption.
    unfold retryRequest, analyze_request. cbn [opt_retries].
    rewrite retry_post_step. cbv zeta. rewrite Hremote.
    cbn [responseInterceptor]. rewrite Hok. cbn [andb Z.ltb Z.compare].
    eexists. split; [reflexivity|]. split.
    + apply calls_log_request.
    + apply waits_log_request.
Qed.

End Calls.

Lemma analyze_precondition_samples :
  (exists e,
     analyzePrompt (connect (always 503) 1 1) (JsString EmptyString) no_options empty_world
       = (Throw (ThrowNexus e), empty_world) /\
     member e = ValidationFailure) /\
  (exists e,
     analyzePrompt (connect (always 503) 1 1) JsNull no_options empty_world
       = (Throw (ThrowNexus e), empty_world) /\
     member e = ValidationFailure) /\
  (exists req rest,
     trace (snd (analyzePrompt (connect (always 503) 1 1) (JsString "test")
                   (mkOptions None (Some 0)) empty_world))
       = trace empty_world ++ EvRequest req :: rest /\
     req_method req = POST /\ req_url req = analyze_url /\
     req_data req = JsObject [("prompt", JsString "test")]).
Proof.
  split; [|split].
  - apply (analyze_precondition (always 503) 1%positive 1%positive (JsString EmptyString)). reflexivity.
  - apply (analyze_precondition (always 503) 1%positive 1%positive JsNull). reflexivity.
  - apply (analyze_precondition (always 503) 1%positive 1%positive (JsString "test")).
    reflexivity.
Defined.

Lemma auth_no_retry_sample :
  exists e w',
    analyzePrompt (connect (always 401) 1 1) (JsString "test") (mkOptions None (Some 3))
      (snd (sample_client (always 401)))
    = (Throw (ThrowNexus e), w') /\
    member e = AuthenticationFailure /\
    calls (trace w') = 1%nat.
Proof.
  apply (auth_no_retry (always 401) 1%positive 1%positive (JsString "test")
           (mkOptions None (Some 3)) (snd (sample_client (always 401)))).
  - reflexivity.
  - intros req. apply responds_printable_always.
Defined.

(** C6 fails on the code: a 401 whose body has an [error] property with a
    [toString] property of its own makes the constructor of the error
    throw inside the interceptor; [analyzePrompt] and [healthCheck] then
    throw the Service failure of their catch block, after one invocation
    of the transport. *)
Theorem auth_unprintable_body_wrapped :
  let remote := always_body 401 unprintable_body in
  let self := connect remote 1 1 in
  let w := snd (sample_client remote) in
  (forall k req, responds 401 (remote k req)) /\
  handleError (http_error 401 unprintable_body) = Throw ThrowTypeError /\
  fst (analyzePrompt self (JsString "test") no_options w)
    = Throw (ThrowNexus (wrapper "Failed to analyze prompt" JsUndefined)) /\
  calls (trace (snd (analyzePrompt self (JsString "test") no_options w))) = 1%nat /\
  fst (healthCheck self w)
    = Throw (ThrowNexus (wrapper "Failed to check service health" JsUndefined)) /\
  calls (trace (snd (healthCheck self w))) = 1%nat /\
  member (wrapper "Failed to analyze prompt" JsUndefined) = ServiceFailure /\
  member (wrapper "Failed to check service health" JsUndefined) = ServiceFailure.
Proof.
  intros remote self w. split.
  - intros k req. eexists _, _. repeat split.
  - vm_compute. repeat split.
Qed.

Lemma falsy_overrides_sample :
  exists w',
    analyzePrompt (connect (always 503) 1 1) (JsString "test") (mkOptions None (Some 0))
      (snd (sample_client (always 503)))
    = (Throw (ThrowNexus
                (classified (http_error 503 (JsObject [("error", JsString "nope")])) "nope")),
       w') /\
    calls (trace w') = 1%nat /\
    waits (trace w') = [].
Proof.
  apply (proj2 (falsy_overrides (always 503) 1%positive 1%positive (JsString "test")
                  (snd (sample_client (always 503))) eq_refl)
           None (http_error 503 (JsObject [("error", JsString "nope")]))).
  - intros req. reflexivity.
  - reflexivity.
  - reflexivity.
Defined.

(** C7: what the retry loop throws reaches the caller of [analyzePrompt]
    unchanged when it is a [NexusVoidError]; anything else is replaced by a
    Service failure with the message "Failed to analyze prompt" that carries
    the response of the original failure (none when that failure is a
    TypeError). *)
Theorem analyze_rethrows_typed (self : NexusVoidClient) (prompt : JsValue)
    (options : AnalysisOptions) (w w' : World) (error : Thrown) :
  is_valid_prompt prompt = true ->
  retryRequest self (analyze_request self prompt options w) (opt_retries options) w
    = (Throw error, w') ->
  match error with
  | ThrowNexus e =>
    analyzePrompt self prompt options w = (Throw (ThrowNexus e), w')
  | ThrowOther raw =>
    exists e,
      analyzePrompt self prompt options w = (Throw (ThrowNexus e), w') /\
      member e = ServiceFailure /\
      code e = Some "SERVICE_ERROR" /\ status e = Some 500 /\
      message e = "Failed to analyze prompt" /\
      response e = response_value (err_response raw)
  | ThrowTypeError =>
    exists e,
      analyzePrompt self prompt options w = (Throw (ThrowNexus e), w') /\
      member e = ServiceFailure /\
      code e = Some "SERVICE_ERROR" /\ status e = Some 500 /\
      message e = "Failed to analyze prompt" /\
      response e = JsUndefined
  end.
Proof.
  intros Hv Hrun. rewrite analyzePrompt_valid, Hrun by assumption.
  destruct error as [e|raw|]; [reflexivity| |].
  - eexists. split; [reflexivity|]. repeat split.
  - eexists. split; [reflexivity|]. repeat split.
Qed.

Lemma analyze_rethrows_typed_mock :
  let mockError :=
    mkAxiosError
      (Some (mkAxiosResponse 401 (JsObject [("error", JsString "Invalid API key")])))
      None None in
  exists e,
    analyzePrompt {| client := mock_rejecting mockError; config := 1 |}
      (JsString "test") no_options (snd (sample_client (always 401)))
    = (Throw (ThrowNexus e), snd (sample_client (always 401))) /\
    member e = ServiceFailure /\
    code e = Some "SERVICE_ERROR" /\ status e = Some 500 /\
    message e = "Failed to analyze prompt" /\
    response e = JsResponse 401 (JsObject [("error", JsString "Invalid API key")]).
Proof.
  intros mockError.
  apply (analyze_rethrows_typed {| client := mock_rejecting mockError; config := 1 |}
           (JsString "test") no_options (snd (sample_client (always 401)))
           (snd (sample_client (always 401))) (ThrowOther mockError)).
  - reflexivity.
  - reflexivity.
Defined.

(** ** getConfig *)

Lemma mutations_frame (l l' : loc) (fs : list (NexusVoidConfig -> NexusVoidConfig)) :
  l' <> l ->
  forall w,
    configs (mutations l' fs w) !! l = configs w !! l /\
    axios_defaults (mutations l' fs w) = axios_defaults w /\
    trace (mutations l' fs w) = trace w.
Proof.
  intros Hne. unfold mutations.
  induction fs as [|f fs IH]; intros w; [repeat split|].
  cbn [foldl]. destruct (IH (mutate l' f w)) as (Hc & Ha & Ht).
  rewrite Hc, Ha, Ht. unfold mutate. cbn [configs axios_defaults trace].
  rewrite lookup_alter_ne by assumption. repeat split.
Qed.

Lemma same_view_log (l : loc) (e : Event) (w w' : World) :
  same_view l w w' -> same_view l (log e w) (log e w').
Proof.
  intros (Hc & Ha & Ht). unfold same_view, log. cbn [configs axios_defaults trace].
  rewrite Hc, Ha, Ht. repeat split.
Qed.

Lemma same_view_refl (l : loc) (w : World) : same_view l w w.
Proof. repeat split. Qed.

Section Snapshot.

Variable remote : nat -> Request -> Outcome.
Variables d l : loc.

Local Abbreviation self := (connect remote d l).

Lemma retry_same_view (url : string) (data : JsValue) (cfg : AxiosRequestConfig) (n : Z) :
  forall w w',
    same_view l w w' ->
    fst (retryRequest_from self (post (client self) url data cfg) n w) =
    fst (retryRequest_from self (post (client self) url data cfg) n w') /\
    same_view l
      (snd (retryRequest_from self (post (client self) url data cfg) n w))
      (snd (retryRequest_from self (post (client self) url data cfg) n w')).
Proof.
  induction n as [n IH] using budget_ind. intros w w' Hview.
  rewrite !retry_post_step. cbv zeta.
  pose proof Hview as (Hc & Ha & Ht). rewrite Hc, Ha, Ht.
  destruct (responseInterceptor _) as [r|error].
  { cbn [fst snd]. split; [reflexivity|]. apply same_view_log, Hview. }
  destruct ((0 <? n) && shouldRetry error) eqn:E.
  2: { cbn [fst snd]. split; [reflexivity|]. apply same_view_log, Hview. }
  apply andb_prop in E as [Hn%Z.ltb_lt _].
  apply (IH Hn). apply same_view_log, same_view_log, Hview.
Qed.

Lemma analyzePrompt_same_view (prompt : JsValue) (options : AnalysisOptions) (w w' : World) :
  same_view l w w' ->
  fst (analyzePrompt self prompt options w) = fst (analyzePrompt self prompt options w') /\
  same_view l (snd (analyzePrompt self prompt options w))
    (snd (analyzePrompt self prompt options w')).
Proof.
  intros Hview. destruct (is_valid_prompt prompt) eqn:Hv.
  - rewrite !analyzePrompt_valid by assumption.
    unfold retryRequest, analyze_request. cbn [config connect].
    pose proof Hview as (Hc & _ & _). rewrite Hc.
    match goal with |- context [retryRequest_from _ (post _ ?u ?b ?c) ?n w] =>
      destruct (retry_same_view u b c n w w' Hview) as (Hfst & Hsnd) end.
    destruct (retryRequest_from _ _ _ w) as [res w1].
    destruct (retryRequest_from _ _ _ w') as [res' w1'].
    cbn [fst snd] in Hfst, Hsnd. subst res'.
    destruct res as [r|[e|raw|]]; cbn [fst snd]; split; (reflexivity || assumption).
  - destruct (analyzePrompt_invalid prompt Hv) as (e & Heq & _).
    rewrite !Heq. cbn [fst snd]. split; [reflexivity|assumption].
Qed.

Lemma healthCheck_same_view (w w' : World) :
  same_view l w w' ->
  fst (healthCheck self w) = fst (healthCheck self w') /\
  same_view l (snd (healthCheck self w)) (snd (healthCheck self w')).
Proof.
  intros Hview. unfold healthCheck, try_catch, bind. rewrite !get_run. cbv zeta.
  pose proof Hview as (_ & Ha & Ht). rewrite Ha, Ht.
  destruct (responseInterceptor _) as [r|[e|raw|]]; cbn [fst snd]; split;
    (reflexivity || apply same_view_log, Hview).
Qed.

(** C8: [getConfig] hands out a new object holding the fields of the
    configuration; whatever is assigned to that object afterwards, the
    configuration the client holds is what it was, and [analyzePrompt] and
    [healthCheck] return the same result and hand the same requests to the
    transport as without the assignments. *)
Theorem getConfig_snapshot (w : World) (fs : list (NexusVoidConfig -> NexusVoidConfig)) :
  is_Some (configs w !! l) ->
  exists l' w1,
    getConfig self w = (Ok l', w1) /\
    l' <> l /\
    configs w1 !! l' = configs w !! l /\
    let w2 := mutations l' fs w1 in
    configs w2 !! l = configs w !! l /\
    (forall prompt options,
        fst (analyzePrompt self prompt options w2) = fst (analyzePrompt self prompt options w) /\
        trace (snd (analyzePrompt self prompt options w2))
          = trace (snd (analyzePrompt self prompt options w))) /\
    fst (healthCheck self w2) = fst (healthCheck self w) /\
    trace (snd (healthCheck self w2)) = trace (snd (healthCheck self w)).
Proof.
  intros [c Hc].
  assert (Hfresh : fresh (dom (configs w)) <> l).
  { intros Heq. apply (is_fresh (dom (configs w))). rewrite Heq.
    apply elem_of_dom. eauto. }
  eexists _, _. split; [reflexivity|]. split; [exact Hfresh|].
  cbn [configs config connect]. split.
  { rewrite lookup_insert_eq, Hc. f_equal. apply lookup_total_correct, Hc. }
  cbv zeta.
  match goal with |- context [mutations ?l' fs ?w1] =>
    destruct (mutations_frame l l' fs Hfresh w1) as (Hm & Ha & Ht);
    set (w2 := mutations l' fs w1) in * end.
  cbn [configs axios_defaults trace] in Hm, Ha, Ht.
  rewrite lookup_insert_ne in Hm by exact Hfresh.
  assert (Hview : same_view l w2 w).
  { repeat split; [|assumption|assumption].
    rewrite !lookup_total_alt, Hm. reflexivity. }
  split; [exact Hm|]. split; [|split].
  - intros prompt options.
    destruct (analyzePrompt_same_view prompt options w2 w Hview) as (Hf & _ & _ & Hs).
    split; assumption.
  - apply (healthCheck_same_view w2 w Hview).
  - apply (healthCheck_same_view w2 w Hview).
Qed.

End Snapshot.

(** An assignment through the client's own reference does reach the next
    request: the store keeps the two objects apart, not the model. *)
Example own_reference_is_live :
  let remote := always 401 in
  let w := snd (sample_client remote) in
  let short := fun c : NexusVoidConfig => mkConfig (apiKey c) (baseUrl c) 1 (retries c) in
  req_timeout <$> requests (trace (snd (analyzePrompt (connect remote 1 1) (JsString "test")
                                          no_options (mutate 1 short w)))) = [1] /\
  req_timeout <$> requests (trace (snd (analyzePrompt (connect remote 1 1) (JsString "test")
                                          no_options w))) = [30000].
Proof. vm_compute. split; reflexivity. Qed.

Lemma getConfig_snapshot_sample :
  let remote := always 401 in
  let w := snd (sample_client remote) in
  let steal := fun _ : NexusVoidConfig => mkConfig "other-key" "http://localhost" 1 99 in
  exists l' w1,
    getConfig (connect remote 1 1) w = (Ok l', w1) /\
    l' <> 1%positive /\
    configs w1 !! l' = configs w !! 1%positive /\
    let w2 := mutations l' [steal] w1 in
    configs w2 !! 1%positive = configs w !! 1%positive /\
    (forall prompt options,
        fst (analyzePrompt (connect remote 1 1) prompt options w2)
          = fst (analyzePrompt (connect remote 1 1) prompt options w) /\
        trace (snd (analyzePrompt (connect remote 1 1) prompt options w2))
          = trace (snd (analyzePrompt (connect remote 1 1) prompt options w))) /\
    fst (healthCheck (connect remote 1 1) w2) = fst (healthCheck (connect remote 1 1) w) /\
    trace (snd (healthCheck (connect remote 1 1) w2))
      = trace (snd (healthCheck (connect remote 1 1) w)).
Proof.
  intros remote w steal.
  apply (getConfig_snapshot remote 1%positive 1%positive w [steal]).
  eexists. vm_compute. reflexivity.
Defined.

(** * Further properties *)

(** ** The shape of a run of the retry loop *)

Lemma calls_attempt_trace (req : Request) (ws : list Z) :
  calls (attempt_trace req ws) = S (length ws).
Proof.
  unfold attempt_trace. rewrite calls_cons_request. f_equal.
  induction ws as [|ms ws IH]; [reflexivity|].
  cbn [flat_map app length]. unfold calls in *. cbn [requests length]. rewrite IH.
  reflexivity.
Qed.

Lemma waits_attempt_trace (req : Request) (ws : list Z) :
  waits (attempt_trace req ws) = ws.
Proof.
  unfold attempt_trace. cbn [waits].
  induction ws as [|ms ws IH]; [reflexivity|].
  cbn [flat_map app waits]. rewrite IH. reflexivity.
Qed.

Lemma requests_attempt_trace (req : Request) (ws : list Z) :
  requests (attempt_trace req ws) = replicate (S (length ws)) req.
Proof.
  unfold attempt_trace. cbn [requests replicate]. f_equal.
  induction ws as [|ms ws IH]; [reflexivity|].
  cbn [flat_map app requests length replicate]. rewrite IH. reflexivity.
Qed.

Lemma attempt_trace_cons (req : Request) (ms : Z) (ws : list Z) :
  attempt_trace req (ms :: ws) = EvRequest req :: EvDelay ms :: attempt_trace req ws.
Proof. reflexivity. Qed.

Lemma length_backoff (configured budget : Z) :
  length (backoff configured budget) = Z.to_nat budget.
Proof. unfold backoff. rewrite length_fmap, length_seqZ. reflexivity. Qed.

Section Loop.

Variable remote : nat -> Request -> Outcome.
Variables d l : loc.

Local Abbreviation self := (connect remote d l).

(** A run of the loop: [k] retried failures, each followed by its wait,
    then the attempt whose outcome is the result. *)
Lemma retry_shape (url : string) (data : JsValue) (cfg : AxiosRequestConfig) (n : Z) :
  forall w,
    let req := mkRequest POST (axios_defaults w !!! d) url data cfg in
    let out := retryRequest_from self (post (client self) url data cfg) n w in
    exists k : nat,
      (k <= Z.to_nat n)%nat /\
      configs (snd out) = configs w /\
      axios_defaults (snd out) = axios_defaults w /\
      trace (snd out) =
        trace w ++ attempt_trace req (take k (backoff (retries (configs w !!! l)) n)) /\
      fst out = responseInterceptor (remote (calls (trace w) + k)%nat req) /\
      (forall i, (i < k)%nat -> retried (remote (calls (trace w) + i)%nat req) = true) /\
      ((k < Z.to_nat n)%nat -> retried (remote (calls (trace w) + k)%nat req) = false).
Proof.
  induction n as [n IH] using budget_ind. intros w req out. subst out.
  rewrite retry_post_step. cbv zeta. fold req.
  destruct (remote (calls (trace w)) req) as [r|raw] eqn:Hout.
  { cbn [responseInterceptor].
    exists 0%nat. rewrite Nat.add_0_r, Hout. cbn [take attempt_trace flat_map fst snd].
    repeat split; try reflexivity; [lia|intros i Hi; lia]. }
  rewrite responseInterceptor_rejected.
  destruct (Z.ltb_spec 0 n) as [Hn|Hn]; cbn [andb].
  - destruct (shouldRetry (rejection raw)) eqn:Hretry.
    + match goal with |- context [retryRequest_from _ _ _ ?w1] =>
        destruct (IH Hn w1) as (k & Hk & Hc & Ha & Ht & Hres & Hbefore & Hlast) end.
      rewrite calls_log_delay, calls_log_request in Hres, Hbefore, Hlast.
      cbn [log configs axios_defaults trace] in Hc, Ha, Ht, Hres, Hbefore, Hlast.
      fold req in Ht, Hres, Hbefore, Hlast.
      exists (S k). rewrite Hc, Ha, Ht, Hres.
      rewrite (backoff_pos _ n Hn). cbn [take]. rewrite attempt_trace_cons.
      rewrite <- !app_assoc. cbn [app].
      replace (calls (trace w) + S k)%nat with (S (calls (trace w)) + k)%nat by lia.
      repeat split; try reflexivity; [lia| |].
      * intros [|i] Hi.
        -- rewrite Nat.add_0_r, Hout. exact Hretry.
        -- replace (calls (trace w) + S i)%nat with (S (calls (trace w)) + i)%nat by lia.
           apply Hbefore. lia.
      * intros Hlt. apply Hlast. lia.
    + exists 0%nat. rewrite Nat.add_0_r, Hout, responseInterceptor_rejected.
      cbn [take attempt_trace flat_map fst snd retried].
      repeat split; try reflexivity; [lia|intros i Hi; lia|intros _; exact Hretry].
  - exists 0%nat. rewrite Nat.add_0_r, Hout, responseInterceptor_rejected.
    cbn [take attempt_trace flat_map fst snd retried].
    repeat split; try reflexivity; [lia|intros i Hi; lia|intros Hlt; lia].
Qed.

End Loop.

Lemma retryRequest_budget {T} (self : NexusVoidClient) (requestFn : M T)
    (arg : option Z) (w : World) :
  retryRequest self requestFn arg w =
  retryRequest_from self requestFn (default (retries (configs w !!! config self)) arg) w.
Proof. unfold retryRequest. destruct arg; reflexivity. Qed.

(** Two readings of where a run stops agree. *)
Lemma stop_unique (f : nat -> Outcome) (N k k' : nat) :
  (k <= N)%nat -> (k' <= N)%nat ->
  (forall i, (i < k)%nat -> retried (f i) = true) ->
  ((k < N)%nat -> retried (f k) = false) ->
  (forall i, (i < k')%nat -> retried (f i) = true) ->
  ((k' < N)%nat -> retried (f k') = false) ->
  k' = k.
Proof.
  intros Hk Hk' Hbefore Hlast Hbefore' Hlast'.
  destruct (Nat.lt_trichotomy k' k) as [Hlt|[Heq|Hgt]]; [|assumption|].
  - specialize (Hbefore k' Hlt). rewrite Hlast' in Hbefore by lia. discriminate.
  - specialize (Hbefore' k Hgt). rewrite Hlast in Hbefore' by lia. discriminate.
Qed.

Section LoopProperties.

Variable remote : nat -> Request -> Outcome.
Variables d l : loc.

Local Abbreviation self := (connect remote d l).

(** X1: whatever the remote does, a run of [retryRequest] invokes the
    transport at least once and at most once more than its budget (the
    argument, else the configured retries; a budget below zero counts as
    zero). *)
Theorem retry_attempts_bounded (url : string) (data : JsValue) (cfg : AxiosRequestConfig)
    (arg : option Z) (w : World) :
  let out := retryRequest self (post (client self) url data cfg) arg w in
  let budget := default (retries (configs w !!! l)) arg in
  (calls (trace w) + 1 <= calls (trace (snd out)) /\
   calls (trace (snd out)) <= calls (trace w) + Z.to_nat budget + 1)%nat.
Proof.
  intros out budget. subst out. rewrite retryRequest_budget. cbn [config connect].
  fold budget.
  destruct (retry_shape remote d l url data cfg budget w)
    as (k & Hk & _ & _ & Ht & _).
  rewrite Ht, calls_app, calls_attempt_trace, length_take, length_backoff. lia.
Qed.

(** X2: the events of a run are one request followed by a wait and the
    same request again for each re-attempt; the waits are the first ones of
    the sequence 1000 * (configured - budget + 1 + i), i = 0, 1, ..., and
    their number is the number of attempts less one. *)
Theorem retry_trace_shape (url : string) (data : JsValue) (cfg : AxiosRequestConfig)
    (arg : option Z) (w : World) :
  let out := retryRequest self (post (client self) url data cfg) arg w in
  let budget := default (retries (configs w !!! l)) arg in
  let req := mkRequest POST (axios_defaults w !!! d) url data cfg in
  let m := (calls (trace (snd out)) - calls (trace w) - 1)%nat in
  trace (snd out) =
  trace w ++ attempt_trace req (take m (backoff (retries (configs w !!! l)) budget)).
Proof.
  intros out budget req m. subst out m. rewrite retryRequest_budget. cbn [config connect].
  fold budget.
  destruct (retry_shape remote d l url data cfg budget w)
    as (k & Hk & _ & _ & Ht & _).
  fold req in Ht.
  assert (Hm : (calls (trace (snd (retryRequest_from self (post (client self) url data cfg)
                                     budget w))) - calls (trace w) - 1)%nat = k).
  { rewrite Ht, calls_app, calls_attempt_trace, length_take, length_backoff. lia. }
  rewrite Hm. exact Ht.
Qed.

(** The run of [analyzePrompt] on a prompt that passes the checks. *)
Lemma analyze_shape (prompt : JsValue) (options : AnalysisOptions) (w : World) :
  is_valid_prompt prompt = true ->
  let req := analyze_attempt d l prompt options w in
  let budget := effective_retries (configs w !!! l) options in
  let out := analyzePrompt self prompt options w in
  exists k : nat,
    (k <= Z.to_nat budget)%nat /\
    configs (snd out) = configs w /\
    axios_defaults (snd out) = axios_defaults w /\
    trace (snd out) =
      trace w ++ attempt_trace req (take k (backoff (retries (configs w !!! l)) budget)) /\
    fst out = analyze_result (remote (calls (trace w) + k)%nat req) /\
    (forall i, (i < k)%nat -> retried (remote (calls (trace w) + i)%nat req) = true) /\
    ((k < Z.to_nat budget)%nat -> retried (remote (calls (trace w) + k)%nat req) = false).
Proof.
  intros Hv req budget out. subst out req.
  rewrite analyzePrompt_valid by assumption.
  rewrite retryRequest_budget. unfold analyze_request. cbn [config connect].
  fold (effective_retries (configs w !!! l) options). fold budget.
  match goal with |- context [retryRequest_from _ (post _ ?u ?b ?c) budget w] =>
    destruct (retry_shape remote d l u b c budget w)
      as (k & Hk & Hc & Ha & Ht & Hres & Hbefore & Hlast) end.
  fold (analyze_attempt d l prompt options w) in Ht, Hres, Hbefore, Hlast.
  exists k.
  destruct (retryRequest_from _ _ budget w) as [res w'].
  cbn [fst snd] in Hc, Ha, Ht, Hres. subst res.
  unfold analyze_result, call_result.
  destruct (remote (calls (trace w) + k)%nat (analyze_attempt d l prompt options w))
    as [r|raw]; cbn [responseInterceptor fst snd].
  { repeat split; assumption. }
  destruct (handleError raw) as [e|t] eqn:Hh.
  { cbn [rethrow_or_wrap instanceof_NexusVoidError throw fst snd].
    repeat split; assumption. }
  destruct (handleError_Throw _ _ Hh) as [-> _].
  cbn [rethrow_or_wrap instanceof_NexusVoidError throw_new ServiceError subclass
       new_NexusVoidError Error_message ToString throw thrown_response fst snd].
  repeat split; assumption.
Qed.

(** X3: the result of [analyzePrompt] is the outcome of its last attempt:
    the body of the response when the remote answered, the classification
    of the transport failure otherwise; the wrapper "Failed to analyze
    prompt", with no response attached, stands in for a failure whose
    message has no conversion to a string. *)
Theorem analyze_result_is_last_outcome (prompt : JsValue) (options : AnalysisOptions)
    (w : World) :
  is_valid_prompt prompt = true ->
  let out := analyzePrompt self prompt options w in
  fst out =
  analyze_result (remote (calls (trace (snd out)) - 1)%nat
                    (analyze_attempt d l prompt options w)).
Proof.
  intros Hv out. subst out.
  destruct (analyze_shape prompt options w Hv) as (k & Hk & _ & _ & Ht & Hres & _).
  rewrite Hres, Ht, calls_app, calls_attempt_trace, length_take, length_backoff.
  f_equal. f_equal. lia.
Qed.

End LoopProperties.

Lemma Forall_backoff (configured budget : Z) :
  budget <= configured -> Forall (fun ms => 1000 <= ms) (backoff configured budget).
Proof.
  intros H. unfold backoff. apply Forall_fmap, Forall_seqZ.
  intros i Hi. simpl. lia.
Qed.

Section Decisions.

Variable remote : nat -> Request -> Outcome.
Variables d l : loc.

Local Abbreviation self := (connect remote d l).

(** X4: when the first [k] attempts fail with retried failures and [k]
    is within the budget, the attempt after them decides the call, unless
    the budget ends there: [analyzePrompt] returns what that attempt gave
    (the response body, or its classified failure, or the wrapper when
    its message has no conversion to a string) after [k + 1] invocations
    of the transport and the first [k] waits. *)
Theorem analyze_decided_after_retries (prompt : JsValue) (options : AnalysisOptions)
    (w : World) (k : nat) :
  is_valid_prompt prompt = true ->
  let budget := effective_retries (configs w !!! l) options in
  let out := analyzePrompt self prompt options w in
  (k <= Z.to_nat budget)%nat ->
  (forall i req, (i < k)%nat -> retried (remote (calls (trace w) + i)%nat req) = true) ->
  ((k < Z.to_nat budget)%nat ->
   forall req, retried (remote (calls (trace w) + k)%nat req) = false) ->
  fst out =
    analyze_result (remote (calls (trace w) + k)%nat (analyze_attempt d l prompt options w)) /\
  calls (trace (snd out)) = (calls (trace w) + k + 1)%nat /\
  waits (trace (snd out)) =
    waits (trace w) ++ take k (backoff (retries (configs w !!! l)) budget).
Proof.
  intros Hv budget out Hk Hbefore Hlast. subst out.
  destruct (analyze_shape remote d l prompt options w Hv)
    as (k' & Hk' & _ & _ & Ht & Hres & Hbefore' & Hlast').
  fold budget in Hk', Ht, Hlast'.
  assert (k' = k) as ->.
  { apply (stop_unique
             (fun i => remote (calls (trace w) + i)%nat (analyze_attempt d l prompt options w))
             (Z.to_nat budget)); auto. }
  rewrite Hres, Ht, calls_app, waits_app, calls_attempt_trace, waits_attempt_trace.
  rewrite length_take, length_backoff.
  repeat split. lia.
Qed.

(** X5: [analyzePrompt] leaves the configuration object of the client and
    the defaults of its axios instance as they were, whatever the prompt,
    the per-call options and the remote. *)
Theorem analyze_keeps_configuration (prompt : JsValue) (options : AnalysisOptions)
    (w : World) :
  let out := analyzePrompt self prompt options w in
  configs (snd out) = configs w /\ axios_defaults (snd out) = axios_defaults w.
Proof.
  intros out. subst out. destruct (is_valid_prompt prompt) eqn:Hv.
  - destruct (analyze_shape remote d l prompt options w Hv) as (k & _ & Hc & Ha & _).
    split; assumption.
  - destruct (analyzePrompt_invalid prompt Hv) as (e & Heq & _).
    rewrite Heq. split; reflexivity.
Qed.

(** X6: every request one call of [analyzePrompt] hands to the transport
    is the same: a POST to the analyze endpoint whose body is the prompt,
    under the [timeout] option when that is a number other than 0 and under
    the configured timeout otherwise. *)
Theorem analyze_requests_uniform (prompt : JsValue) (options : AnalysisOptions)
    (w : World) :
  let out := analyzePrompt self prompt options w in
  let req := analyze_attempt d l prompt options w in
  requests (trace (snd out)) =
    requests (trace w) ++ replicate (calls (trace (snd out)) - calls (trace w)) req /\
  req_method req = POST /\ req_url req = analyze_url /\
  req_data req = JsObject [("prompt", prompt)] /\
  req_timeout req =
    match opt_timeout options with
    | Some t => if t =? 0 then timeout (configs w !!! l) else t
    | None => timeout (configs w !!! l)
    end.
Proof.
  intros out req. subst out. split; [|repeat split].
  destruct (is_valid_prompt prompt) eqn:Hv.
  - destruct (analyze_shape remote d l prompt options w Hv) as (k & _ & _ & _ & Ht & _).
    fold req in Ht.
    rewrite Ht, requests_app, calls_app, requests_attempt_trace, calls_attempt_trace.
    f_equal. f_equal. lia.
  - destruct (analyzePrompt_invalid prompt Hv) as (e & Heq & _).
    rewrite Heq. cbn [snd]. rewrite Nat.sub_diag. cbn [replicate].
    rewrite app_nil_r. reflexivity.
Qed.

(** X7: when the budget of a run does not exceed the configured number
    of retries, every wait of the run is at least 1000 ms. *)
Theorem retry_waits_at_least_1000 (url : string) (data : JsValue)
    (cfg : AxiosRequestConfig) (arg : option Z) (w : World) :
  let out := retryRequest self (post (client self) url data cfg) arg w in
  default (retries (configs w !!! l)) arg <= retries (configs w !!! l) ->
  exists ws,
    waits (trace (snd out)) = waits (trace w) ++ ws /\
    Forall (fun ms => 1000 <= ms) ws.
Proof.
  intros out Hle. subst out. rewrite retryRequest_budget. cbn [config connect].
  destruct (retry_shape remote d l url data cfg
              (default (retries (configs w !!! l)) arg) w)
    as (k & _ & _ & _ & Ht & _).
  eexists. rewrite Ht, waits_app, waits_attempt_trace. split; [reflexivity|].
  apply Forall_take, Forall_backoff, Hle.
Qed.

(** X8: when the first attempt of a run with a positive budget fails with
    a retried failure, the first wait is 1000 * (configured - budget + 1) ms,
    which is zero or less as soon as the budget exceeds the configured
    number of retries. *)
Theorem retry_first_wait (url : string) (data : JsValue)
    (cfg : AxiosRequestConfig) (arg : option Z) (w : World) :
  let out := retryRequest self (post (client self) url data cfg) arg w in
  let budget := default (retries (configs w !!! l)) arg in
  0 < budget ->
  (forall req, retried (remote (calls (trace w)) req) = true) ->
  exists rest,
    waits (trace (snd out)) =
    waits (trace w) ++ 1000 * (retries (configs w !!! l) - budget + 1) :: rest.
Proof.
  intros out budget Hpos Hfirst. subst out. rewrite retryRequest_budget.
  cbn [config connect]. fold budget.
  destruct (retry_shape remote d l url data cfg budget w)
    as (k & Hk & _ & _ & Ht & _ & _ & Hlast).
  destruct k as [|k].
  { rewrite Nat.add_0_r, Hfirst in Hlast. discriminate Hlast. lia. }
  rewrite Ht, waits_app, waits_attempt_trace, (backoff_pos _ budget Hpos).
  cbn [take]. eauto.
Qed.

End Decisions.

(** ** Which failures are retried *)

(** X9: a value that is no [NexusVoidError] is never retried: whatever
    the budget, [retryRequest] throws it on after the one attempt, without
    a wait. This is the case of an instance whose rejections do not pass
    through the response interceptor. *)
Theorem unclassified_failure_not_retried {T} (self : NexusVoidClient) (requestFn : M T)
    (arg : option Z) (w w1 : World) (raw : AxiosError) :
  requestFn w = (Throw (ThrowOther raw), w1) ->
  retryRequest self requestFn arg w = (Throw (ThrowOther raw), w1).
Proof.
  intros Hrun. rewrite retryRequest_budget, retryRequest_from_step, Hrun.
  cbn [shouldRetry instanceof andb]. rewrite andb_false_r. reflexivity.
Qed.

Lemma unclassified_failure_not_retried_mock :
  retryRequest {| client := mock_rejecting timeout_abort; config := 1 |}
    (post (mock_rejecting timeout_abort) analyze_url JsNull (mkRequestConfig None))
    (Some 5) empty_world
  = (Throw (ThrowOther timeout_abort), empty_world).
Proof.
  apply (unclassified_failure_not_retried
           {| client := mock_rejecting timeout_abort; config := 1 |}
           (post (mock_rejecting timeout_abort) analyze_url JsNull (mkRequestConfig None))
           (Some 5) empty_world empty_world timeout_abort).
  reflexivity.
Defined.

(** X10: the transport failures the retry policy goes on after are those
    with HTTP status 429, 408, 500, 502, 503 or 504 whose message has a
    conversion to a string and, when there is no response, those with code
    ECONNABORTED, ENOTFOUND or ECONNREFUSED. *)
Theorem retried_failures (raw : AxiosError) :
  retried (Rejected raw) =
  match err_response raw with
  | Some r =>
    bool_decide (resp_status r ∈ retried_statuses) &&
    match table_message raw with Some _ => true | None => false end
  | None =>
    match err_code raw with
    | Some c => bool_decide (c ∈ retried_codes)
    | None => false
    end
  end.
Proof.
  unfold retried, rejection. rewrite handleError_run.
  destruct raw as [[[st data]|] c m]; cbn [err_response resp_status err_code].
  - destruct (table_message _) as [msg|]; [|rewrite andb_false_r; reflexivity].
    rewrite shouldRetry_retryable, andb_true_r.
    unfold retryable, classified, classify_table, status_table, retried_statuses.
    cbn [cls status err_response resp_status row].
    repeat case_eqb; try reflexivity.
    cbn [default class_of]. symmetry. apply bool_decide_eq_false.
    intros H. repeat (apply elem_of_cons in H as [H|H]; [congruence|]). inversion H.
  - match goal with |- context [table_message ?error] =>
      assert (exists msg, table_message error = Some msg) as [msg ->] end.
    { unfold table_message, spec_message.
      cbn [err_response err_message body_of opt_get js_or truthy].
      destruct (classify_table _); destruct m as [[|a m]|]; cbn; eauto. }
    rewrite shouldRetry_retryable.
    unfold retryable, classified, classify_table, code_table, retried_codes.
    cbn [cls status err_response err_code].
    destruct c as [c|]; cbn [mbind option_bind option_ret row default]; [|reflexivity].
    repeat case_eqb; try reflexivity.
    cbn [default class_of]. symmetry. apply bool_decide_eq_false.
    intros H. repeat (apply elem_of_cons in H as [H|H]; [congruence|]). inversion H.
Qed.

Lemma retried_failures_samples :
  retried (Rejected (http_error 503 unprintable_body)) = false /\
  retried (Rejected (http_error 503 JsNull)) = true /\
  retried (Rejected (http_error 404 JsNull)) = false /\
  retried (Rejected timeout_abort) = true.
Proof. vm_compute. repeat split. Qed.

(** X11: on a classified error the code tells the class: dispatching on
    [error.code] picks the class [instanceof] would. *)
Theorem code_tells_class (raw : AxiosError) (e : NexusVoidError) :
  handleError raw = Ok e ->
  class_of_code (code e) = cls e.
Proof.
  intros (m & _ & ->)%handleError_Ok.
  unfold classified, classify_table, status_table, code_table. cbn [code cls].
  destruct raw as [[[st data]|] c msg]; cbn [err_response err_code resp_status row].
  - repeat case_eqb; reflexivity.
  - destruct c as [c|]; cbn [mbind option_bind row default]; [|reflexivity].
    repeat case_eqb; reflexivity.
Qed.

Lemma code_tells_class_sample :
  let e := classified (http_error 429 (JsObject [("error", JsString "slow down")]))
             "slow down" in
  code e = Some "RATE_LIMIT_ERROR" /\ class_of_code (code e) = cls e.
Proof.
  intros e. split; [reflexivity|].
  apply (code_tells_class (http_error 429 (JsObject [("error", JsString "slow down")])) e).
  reflexivity.
Defined.

Lemma textual_or (a b : JsValue) :
  textual a = true -> textual b = true -> textual (js_or a b) = true.
Proof. intros Ha Hb. unfold js_or. destruct (truthy a); assumption. Qed.

Lemma textual_message (v : JsValue) (s : string) :
  textual v = true -> truthy v = true -> Error_message v = Some s ->
  (0 < String.length s)%nat.
Proof.
  destruct v as [| |b|n|s0|items|props|st data]; try discriminate.
  intros _ Ht [= <-]. destruct s0; [discriminate Ht|]. apply Nat.lt_0_succ.
Qed.

(** X12: when the [error] and [message] fields of the response body are
    strings or are not there, a classified error never has an empty
    message: empty strings are passed over and the chain ends in a literal.
    (An empty array in one of the fields gives the empty message.) *)
Theorem classified_message_nonempty (raw : AxiosError) (e : NexusVoidError) :
  textual (opt_get (body_of raw) key_error) = true ->
  textual (opt_get (body_of raw) key_message) = true ->
  handleError raw = Ok e ->
  (0 < String.length (message e))%nat.
Proof.
  intros He Hm (m & Htable & ->)%handleError_Ok. cbn [classified message].
  assert (Hspec : spec_message raw = Some m -> (0 < String.length m)%nat).
  { unfold spec_message. apply textual_message.
    - repeat apply textual_or; try assumption; [|reflexivity].
      destruct (err_message raw); reflexivity.
    - repeat apply js_or_truthy. reflexivity. }
  unfold table_message in Htable.
  destruct (err_response raw); [exact (Hspec Htable)|].
  destruct (classify_table raw); try exact (Hspec Htable);
    injection Htable as <-; apply Nat.lt_0_succ.
Qed.

Lemma classified_message_nonempty_samples :
  (exists e,
     handleError (http_error 500 (JsObject [("error", JsString EmptyString)])) = Ok e /\
     message e = "Request failed with status code 500" /\
     (0 < String.length (message e))%nat) /\
  (exists e,
     handleError (http_error 500 (JsObject [("error", JsArray [])])) = Ok e /\
     message e = EmptyString).
Proof.
  split.
  - eexists. split; [reflexivity|]. split; [reflexivity|].
    apply (classified_message_nonempty
             (http_error 500 (JsObject [("error", JsString EmptyString)]))); reflexivity.
  - eexists. split; reflexivity.
Defined.

(** ** healthCheck *)

(** X13: [healthCheck] hands exactly one GET for the health endpoint to
    the transport, with no body and under the default timeout of the
    instance, and its result is the outcome of that attempt (the body of
    the response, the classified failure, or the wrapper "Failed to check
    service health" when the message of the failure has no conversion to
    a string): it waits for nothing and does not try again, also after a
    failure that [analyzePrompt] would retry. *)
Theorem healthCheck_single_attempt (remote : nat -> Request -> Outcome) (d l : loc)
    (w : World) :
  let req := health_attempt d w in
  healthCheck (connect remote d l) w =
    (health_result (remote (calls (trace w)) req), log (EvRequest req) w) /\
  req_method req = GET /\ req_url req = health_url /\ req_data req = JsUndefined /\
  req_timeout req = dflt_timeout (axios_defaults w !!! d).
Proof.
  intros req. split; [|repeat split].
  unfold healthCheck, try_catch, bind. rewrite get_run. cbv zeta.
  fold (health_attempt d w). fold req.
  unfold health_result, call_result.
  destruct (remote (calls (trace w)) req) as [r|raw]; [reflexivity|].
  cbn [responseInterceptor].
  destruct (handleError raw) as [e|t] eqn:Hh; [reflexivity|].
  destruct (handleError_Throw _ _ Hh) as [-> _]. reflexivity.
Qed.

(** ** Construction and the setters *)

(** X14: the configuration read back from a client just built holds the
    fields given to [createClient], with https://api.nexusvoid.com, 30000
    and 3 for a missing base URL, timeout and number of retries. *)
Theorem createClient_getConfig (remote : nat -> Request -> Outcome)
    (input : ConfigInput) (w : World) :
  let c := fst (createClient remote input w) in
  let w1 := snd (createClient remote input w) in
  exists l',
    fst (getConfig c w1) = Ok l' /\
    configs (snd (getConfig c w1)) !! l' =
      Some {| apiKey := in_apiKey input;
              baseUrl := default "https://api.nexusvoid.com" (in_baseUrl input);
              timeout := default 30000 (in_timeout input);
              retries := default 3 (in_retries input) |}.
Proof.
  intros c w1. eexists. split; [reflexivity|].
  unfold getConfig. cbn [snd configs]. rewrite lookup_insert_eq. f_equal.
  subst c w1. unfold createClient, new_NexusVoidClient. cbn [fst snd config configs].
  apply lookup_total_insert_eq.
Qed.

Lemma fresh_allocated {A} (m : gmap loc A) (l0 : loc) :
  is_Some (m !! l0) -> fresh (dom m) <> l0.
Proof.
  intros Hsome Heq. apply (is_fresh (dom m)). rewrite Heq.
  apply elem_of_dom, Hsome.
Qed.

(** X15: clients do not share state: building a client and calling its
    setters leaves every configuration object and every set of axios
    defaults that existed before as it was, and issues no request. *)
Theorem clients_do_not_share (remote : nat -> Request -> Outcome) (input : ConfigInput)
    (w : World) (l0 d0 : loc) (k u : string) :
  is_Some (configs w !! l0) ->
  is_Some (axios_defaults w !! d0) ->
  let c := fst (createClient remote input w) in
  let w1 := snd (createClient remote input w) in
  let w2 := snd (setBaseUrl c u (snd (setApiKey c k w1))) in
  configs w2 !! l0 = configs w !! l0 /\
  axios_defaults w2 !! d0 = axios_defaults w !! d0 /\
  trace w2 = trace w.
Proof.
  intros Hl Hd c w1 w2. subst c w1 w2.
  pose proof (fresh_allocated _ _ Hl) as Hnl.
  pose proof (fresh_allocated _ _ Hd) as Hnd.
  unfold createClient, new_NexusVoidClient, setBaseUrl, setApiKey.
  cbn [fst snd config client defaults axios_create configs axios_defaults trace].
  rewrite !lookup_alter_ne, !lookup_insert_ne by assumption.
  repeat split.
Qed.

Lemma clients_do_not_share_sample :
  let w := snd (sample_client (always 401)) in
  let c := fst (createClient (always 503) (mkConfigInput "second" None (Some 5) None) w) in
  let w1 := snd (createClient (always 503) (mkConfigInput "second" None (Some 5) None) w) in
  let w2 := snd (setBaseUrl c "http://localhost" (snd (setApiKey c "third" w1))) in
  configs w2 !! 1%positive = configs w !! 1%positive /\
  axios_defaults w2 !! 1%positive = axios_defaults w !! 1%positive /\
  trace w2 = trace w.
Proof.
  intros w.
  apply (clients_do_not_share (always 503) (mkConfigInput "second" None (Some 5) None)
           w 1%positive 1%positive "third" "http://localhost").
  - eexists. vm_compute. reflexivity.
  - eexists. vm_compute. reflexivity.
Defined.

(** X16: after [setApiKey] and [setBaseUrl] the configuration read back
    holds the new key and the new base URL, and the timeout and the number
    of retries it had. *)
Theorem setters_then_getConfig (self : NexusVoidClient) (k u : string) (w : World)
    (c : NexusVoidConfig) :
  configs w !! config self = Some c ->
  let w1 := snd (setBaseUrl self u (snd (setApiKey self k w))) in
  exists l',
    fst (getConfig self w1) = Ok l' /\
    configs (snd (getConfig self w1)) !! l' = Some (mkConfig k u (timeout c) (retries c)).
Proof.
  intros Hc w1. eexists. split; [reflexivity|].
  unfold getConfig. cbn [snd configs]. rewrite lookup_insert_eq. f_equal.
  subst w1. unfold setBaseUrl, setApiKey. cbn [snd configs].
  apply lookup_total_correct.
  rewrite !lookup_alter_eq, Hc. reflexivity.
Qed.

Lemma setters_then_getConfig_sample :
  let self := connect (always 401) 1 1 in
  let w := snd (sample_client (always 401)) in
  let w1 := snd (setBaseUrl self "http://localhost" (snd (setApiKey self "new-api-key" w))) in
  exists l',
    fst (getConfig self w1) = Ok l' /\
    configs (snd (getConfig self w1)) !! l' =
      Some (mkConfig "new-api-key" "http://localhost" 30000 3).
Proof.
  intros self w.
  apply (setters_then_getConfig self "new-api-key" "http://localhost" w
           (mkConfig "test-key" "https://api.nexusvoid.com" 30000 3)).
  vm_compute. reflexivity.
Defined.

(** X17: the setters reach the next request: after [setApiKey] and
    [setBaseUrl] the defaults a request is handed to the transport with
    hold the new base URL and, in the common Authorization header, the new
    bearer token; the Authorization header given at construction and the
    default timeout are as they were. *)
Theorem setters_reach_next_request (remote : nat -> Request -> Outcome) (d l : loc)
    (k u : string) (w : World) (df : AxiosDefaults) :
  axios_defaults w !! d = Some df ->
  let self := connect remote d l in
  let w1 := snd (setBaseUrl self u (snd (setApiKey self k w))) in
  exists req,
    trace (snd (healthCheck self w1)) = trace w ++ [EvRequest req] /\
    baseURL (req_defaults req) = u /\
    headers_common_Authorization (req_defaults req) = Some ("Bearer " +:+ k) /\
    headers_Authorization (req_defaults req) = headers_Authorization df /\
    dflt_timeout (req_defaults req) = dflt_timeout df.
Proof.
  intros Hd self w1.
  assert (Hdf : axios_defaults w1 !!! d =
                mkDefaults u (dflt_timeout df) (headers_Authorization df)
                  (headers_ContentType df) (headers_UserAgent df)
                  (Some ("Bearer " +:+ k))).
  { subst w1. unfold setBaseUrl, setApiKey.
    cbn [snd axios_defaults client defaults connect axios_create self].
    apply lookup_total_correct. rewrite !lookup_alter_eq, Hd. reflexivity. }
  exists (health_attempt d w1). split.
  - unfold healthCheck, try_catch, bind. subst self. rewrite get_run. cbv zeta.
    fold (health_attempt d w1).
    destruct (responseInterceptor _) as [r|[e|raw|]]; reflexivity.
  - unfold health_attempt. cbn [req_defaults]. rewrite Hdf. repeat split.
Qed.

Lemma setters_reach_next_request_sample :
  let self := connect (always 401) 1 1 in
  let w := snd (sample_client (always 401)) in
  let w1 := snd (setBaseUrl self "http://localhost" (snd (setApiKey self "new-api-key" w))) in
  exists req,
    trace (snd (healthCheck self w1)) = trace w ++ [EvRequest req] /\
    baseURL (req_defaults req) = "http://localhost" /\
    headers_common_Authorization (req_defaults req) = Some "Bearer new-api-key" /\
    headers_Authorization (req_defaults req) = "Bearer test-key" /\
    dflt_timeout (req_defaults req) = 30000.
Proof.
  intros self w.
  apply (setters_reach_next_request (always 401) 1%positive 1%positive
           "new-api-key" "http://localhost" w
           (mkDefaults "https://api.nexusvoid.com" 30000 "Bearer test-key"
              "application/json" "@nexusvoid/security-sdk/1.0.0" None)).
  vm_compute. reflexivity.
Defined.

(** ** The two precondition failures *)

(** X18: the Validation failure of [analyzePrompt] says which check
    failed: "Prompt must be less than 10,000 characters" for a string of
    more than 10,000 characters, "Prompt must be a non-empty string" for the
    empty string and for every value that is no string; it carries no
    response, and it is the same for every client, option and world. *)
Theorem validation_messages (prompt : JsValue) :
  is_invalid_prompt prompt = true ->
  exists e,
    (forall self options w,
        analyzePrompt self prompt options w = (Throw (ThrowNexus e), w)) /\
    message e =
      (if (String.eqb (typeof prompt) "string") && (10000 <? js_length prompt)
       then "Prompt must be less than 10,000 characters"
       else "Prompt must be a non-empty string") /\
    response e = JsUndefined.
Proof.
  intros Hinv. unfold analyzePrompt.
  destruct prompt as [| |b|n|s|items|props|st data];
    try (eexists; split; [intros; cbn; rewrite ?orb_true_r; reflexivity|];
         split; reflexivity).
  cbn [is_invalid_prompt] in Hinv. cbn [truthy typeof js_length].
  rewrite eqb_empty_length.
  change (String.eqb "string" "string") with true. cbn [negb orb andb].
  rewrite orb_false_r, negb_involutive.
  destruct (Z.ltb_spec (Z.of_nat (String.length s)) 1) as [Hlt|Hge].
  - replace (10000 <? Z.of_nat (String.length s)) with false
      by (symmetry; apply Z.ltb_ge; lia).
    eexists. split; [reflexivity|]. split; reflexivity.
  - destruct (Z.ltb_spec 10000 (Z.of_nat (String.length s))) as [Hlong|Hshort].
    + eexists. split; [reflexivity|]. split; reflexivity.
    + exfalso. rewrite orb_false_r in Hinv. apply Z.eqb_eq in Hinv. lia.
Qed.

Lemma validation_messages_samples :
  (exists e,
     (forall self options w,
         analyzePrompt self (JsString EmptyString) options w = (Throw (ThrowNexus e), w)) /\
     message e = "Prompt must be a non-empty string" /\
     response e = JsUndefined) /\
  (exists e,
     (forall self options w,
         analyzePrompt self (JsNumber "42") options w = (Throw (ThrowNexus e), w)) /\
     message e = "Prompt must be a non-empty string" /\
     response e = JsUndefined).
Proof.
  split.
  - apply (validation_messages (JsString EmptyString)). reflexivity.
  - apply (validation_messages (JsNumber "42")). reflexivity.
Defined.

(** ** Sample runs of the further properties *)

Lemma analyze_result_is_last_outcome_flaky :
  let remote := flaky (JsString "ok") in
  let w := snd (sample_client remote) in
  let out := analyzePrompt (connect remote 1 1) (JsString "test") no_options w in
  fst out =
  analyze_result (remote (calls (trace (snd out)) - 1)%nat
                    (analyze_attempt 1 1 (JsString "test") no_options w)).
Proof.
  intros remote w.
  apply (analyze_result_is_last_outcome remote 1%positive 1%positive
           (JsString "test") no_options w).
  reflexivity.
Defined.

Lemma analyze_decided_after_retries_flaky :
  let remote := flaky (JsString "ok") in
  let w := snd (sample_client remote) in
  let out := analyzePrompt (connect remote 1 1) (JsString "test") no_options w in
  fst out = Ok (JsString "ok") /\
  calls (trace (snd out)) = 2%nat /\
  waits (trace (snd out)) = [1000].
Proof.
  intros remote w.
  apply (analyze_decided_after_retries remote 1%positive 1%positive
           (JsString "test") no_options w 1%nat).
  - reflexivity.
  - vm_compute. repeat constructor.
  - intros i req Hi. assert (i = 0%nat) as -> by lia. reflexivity.
  - intros _ req. reflexivity.
Defined.

Lemma retry_waits_at_least_1000_sample :
  let remote := always 503 in
  let w := snd (sample_client remote) in
  let out :=
    retryRequest (connect remote 1 1)
      (post (client (connect remote 1 1)) analyze_url JsNull (mkRequestConfig None))
      (Some 2) w in
  exists ws,
    waits (trace (snd out)) = waits (trace w) ++ ws /\
    Forall (fun ms => 1000 <= ms) ws.
Proof.
  intros remote w.
  apply (retry_waits_at_least_1000 remote 1%positive 1%positive analyze_url JsNull
           (mkRequestConfig None) (Some 2) w).
  vm_compute. discriminate.
Defined.

Lemma retry_first_wait_override :
  let remote := always 429 in
  let w := snd (sample_client remote) in
  let out :=
    retryRequest (connect remote 1 1)
      (post (client (connect remote 1 1)) analyze_url JsNull (mkRequestConfig None))
      (Some 5) w in
  exists rest, waits (trace (snd out)) = waits (trace w) ++ (-1000) :: rest.
Proof.
  intros remote w.
  apply (retry_first_wait remote 1%positive 1%positive analyze_url JsNull
           (mkRequestConfig None) (Some 5) w).
  - reflexivity.
  - intros req. reflexivity.
Defined.
